(** * Sales dashboard: the chart aggregation of [App.jsx] and the upload
      route of [server.js]

    A shallow embedding of the two source files of the dashboard:

    - [frontend/src/App.jsx]: [handleFileChange] (which parser a selected
      file is handed to) and [createChartData] (the six chart datasets
      derived from the parsed rows);
    - [backend/server.js]: the handler of [POST /upload].

    JavaScript numbers are IEEE 754 binary64 values; they are modelled by
    Rocq's primitive floats, which are the same format with the same
    rounding.  The aggregation is written over an interface of arithmetic
    operations ([Number]), of which the program is the instance
    [js_number]: what is proved for every instance holds of the program,
    and what depends on rounding is stated at [js_number]. *)

From Stdlib Require Import List String Ascii Bool Arith ZArith Lia Floats.
Import ListNotations.

Set Warnings "-register-all,-inexact-float".

Open Scope string_scope.
Open Scope list_scope.

(** ** Numbers *)

(** The arithmetic [createChartData] uses: [+], [-], [*], [/], the literals
    [0], [0.1], [1] and [100], and [NaN], which is what arithmetic on
    [undefined] yields. *)
Class Number (num : Type) : Type := {
  zero : num;
  tenth : num;
  one : num;
  hundred : num;
  NaN : num;
  add : num -> num -> num;
  sub : num -> num -> num;
  mul : num -> num -> num;
  div : num -> num -> num
}.

(** JavaScript's [number]. *)
#[export] Instance js_number : Number float := {|
  zero := 0%float;
  tenth := 0.1%float;
  one := 1%float;
  hundred := 100%float;
  NaN := nan;
  add := PrimFloat.add;
  sub := PrimFloat.sub;
  mul := PrimFloat.mul;
  div := PrimFloat.div
|}.

(** ** Strings *)

(** [s.split(sep)] for a separator of one character.  The result is never
    empty: the empty string splits into one empty piece. *)
Fixpoint split (sep : ascii) (s : string) : list string :=
  match s with
  | EmptyString => [EmptyString]
  | String c rest =>
      if Ascii.eqb c sep then EmptyString :: split sep rest
      else match split sep rest with
           | [] => [String c EmptyString]
           | piece :: pieces => String c piece :: pieces
           end
  end.

(** [s.startsWith(p)]. *)
Definition startsWith (s p : string) : bool := String.prefix p s.

(** [c.toLowerCase()] on one character, and [s.toLowerCase()]: the letters
    [A]-[Z] are mapped to [a]-[z]; every other byte is kept.  This is
    JavaScript's [toLowerCase] on ASCII text; the cased letters outside
    ASCII, which JavaScript lowers as well, never become a letter of [csv],
    [xls] or [xlsx]. *)
Definition lower_char (c : ascii) : ascii :=
  let n := nat_of_ascii c in
  if (65 <=? n)%nat && (n <=? 90)%nat then ascii_of_nat (n + 32) else c.

Fixpoint toLowerCase (s : string) : string :=
  match s with
  | EmptyString => EmptyString
  | String c rest => String (lower_char c) (toLowerCase rest)
  end.

(** ** Arrays and sets *)

(** [arr.pop()] as far as its result goes: the last element, [undefined]
    ([None]) on the empty array. *)
Fixpoint pop {A : Type} (arr : list A) : option A :=
  match arr with
  | [] => None
  | [x] => Some x
  | _ :: rest => pop rest
  end.

(** [arr.reduce(f, init)]. *)
Definition reduce {A B : Type} (f : B -> A -> B) (init : B) (arr : list A) : B :=
  fold_left f arr init.

(** [arr.map((x, index, arr) => ...)]: the callback also receives the index
    of the element and the array itself. *)
Fixpoint map_from {A B : Type} (f : A -> nat -> B) (index : nat) (arr : list A)
  : list B :=
  match arr with
  | [] => []
  | x :: rest => f x index :: map_from f (S index) rest
  end.

Definition map_indexed {A B : Type} (f : A -> nat -> list A -> B) (arr : list A)
  : list B :=
  map_from (fun x index => f x index arr) 0 arr.

(** A [Set] of strings keeps its elements in insertion order; [add] of an
    element already present changes nothing. *)
Definition Set_add (s : list string) (x : string) : list string :=
  if existsb (String.eqb x) s then s else s ++ [x].

(** [[...new Set(arr)]]: the elements are added from left to right and the
    spread lists the set in insertion order. *)
Definition Set_spread (arr : list string) : list string :=
  fold_left Set_add arr [].

(** ** JavaScript values *)

(** Object literals are kept as the list of their entries, in the order of
    the literal. *)
Inductive value (num : Type) : Type :=
| VUndefined
| VNum (n : num)
| VStr (s : string)
| VBool (b : bool)
| VArr (items : list (value num))
| VObj (entries : list (string * value num)).

Arguments VUndefined {num}.
Arguments VNum {num} n.
Arguments VStr {num} s.
Arguments VBool {num} b.
Arguments VArr {num} items.
Arguments VObj {num} entries.

(** [obj[key]]: [None] stands for [undefined]. *)
Fixpoint lookup {A : Type} (key : string) (entries : list (string * A)) : option A :=
  match entries with
  | [] => None
  | (k, v) :: rest => if String.eqb key k then Some v else lookup key rest
  end.

Definition get {num : Type} (key : string) (v : value num) : option (value num) :=
  match v with
  | VObj entries => lookup key entries
  | _ => None
  end.

(** [Object.keys(obj)]. *)
Definition keys {num : Type} (v : value num) : list string :=
  match v with
  | VObj entries => map fst entries
  | _ => []
  end.

(** ** Rows *)

(** One parsed record, with the four columns the aggregation reads:
    [Date], ["Product Name"], ["Total Revenue"], ["Quantity Sold"]. *)
Record Row (num : Type) : Type := mkRow {
  Date : string;
  Product_Name : string;
  Total_Revenue : num;
  Quantity_Sold : num
}.

Arguments mkRow {num} _ _ _ _.
Arguments Date {num} _.
Arguments Product_Name {num} _.
Arguments Total_Revenue {num} _.
Arguments Quantity_Sold {num} _.

(** ** [createChartData] *)

Section Aggregation.

Context {num : Type} `{Number num}.

(** A point of the scatter plot. *)
Record Point : Type := mkPoint { x : num; y : num }.

Definition VPoint (p : Point) : value num :=
  VObj [("x", VNum (x p)); ("y", VNum (y p))].

Definition dates (data : list (Row num)) : list string :=
  map (fun item => Date item) data.

Definition totalRevenue (data : list (Row num)) : list num :=
  map (fun item => Total_Revenue item) data.

Definition products (data : list (Row num)) : list string :=
  Set_spread (map (fun item => Product_Name item) data).

Definition quantities (data : list (Row num)) : list num :=
  map (fun item => Quantity_Sold item) data.

(** Average Revenue per Product (Bar chart) *)
Definition averageRevenue (data : list (Row num)) : list num :=
  map (fun product =>
         let productData :=
           filter (fun item => String.eqb (Product_Name item) product) data in
         let totalRevenue :=
           reduce (fun sum item => add sum (Total_Revenue item)) zero productData in
         let totalQuantity :=
           reduce (fun sum item => add sum (Quantity_Sold item)) zero productData in
         div totalRevenue totalQuantity)
      (products data).

(** Revenue vs Quantity Sold (Scatter plot) *)
Definition revenueVsQuantity (data : list (Row num)) : list Point :=
  map (fun product =>
         let productData :=
           filter (fun item => String.eqb (Product_Name item) product) data in
         let totalRevenue :=
           reduce (fun sum item => add sum (Total_Revenue item)) zero productData in
         let totalQuantity :=
           reduce (fun sum item => add sum (Quantity_Sold item)) zero productData in
         {| x := totalQuantity; y := totalRevenue |})
      (products data).

(** Monthly Growth (Line chart).  [date.split("/")[0]] is the first piece
    of the split; were there none, [undefined + "/2023"] would be the
    string ["undefined/2023"]. *)
Definition months (data : list (Row num)) : list string :=
  Set_spread
    (map (fun date => (nth 0 (split "/" date) "undefined" ++ "/2023")%string)
         (dates data)).

Definition monthlyRevenue (data : list (Row num)) : list num :=
  map (fun month =>
         reduce (fun sum item => add sum (Total_Revenue item)) zero
                (filter (fun item => startsWith (Date item) month) data))
      (months data).

(** [arr[index - 1]] is only read for [index >= 1]; out of range it
    would be [undefined], which arithmetic turns into [NaN]. *)
Definition monthlyGrowth (data : list (Row num)) : list num :=
  map_indexed
    (fun revenue index arr =>
       if Nat.eqb index 0 then zero
       else mul (div (sub revenue (nth (index - 1) arr NaN))
                     (nth (index - 1) arr NaN))
                hundred)
    (monthlyRevenue data).

(** Prepare datasets for charts *)
Definition revenueOverTime (data : list (Row num)) : value num :=
  VObj [("labels", VArr (map VStr (dates data)));
        ("datasets",
         VArr [VObj [("label", VStr "Revenue Over Time");
                     ("data", VArr (map VNum (totalRevenue data)));
                     ("fill", VBool false);
                     ("borderColor", VStr "#00bcd4");
                     ("tension", VNum tenth)]])].

Definition productRevenueChart (data : list (Row num)) : value num :=
  VObj [("labels", VArr (map VStr (products data)));
        ("datasets",
         VArr [VObj [("label", VStr "Product-Wise Revenue");
                     ("data",
                      VArr (map VNum
                        (map (fun product =>
                                reduce (fun sum item => add sum (Total_Revenue item)) zero
                                  (filter (fun item =>
                                             String.eqb (Product_Name item) product) data))
                             (products data))));
                     ("backgroundColor", VStr "#00bcd4")]])].

Definition quantitySoldChart (data : list (Row num)) : value num :=
  VObj [("labels", VArr (map VStr (products data)));
        ("datasets",
         VArr [VObj [("label", VStr "Quantity Sold");
                     ("data",
                      VArr (map VNum
                        (map (fun product =>
                                reduce (fun sum item => add sum (Quantity_Sold item)) zero
                                  (filter (fun item =>
                                             String.eqb (Product_Name item) product) data))
                             (products data))));
                     ("backgroundColor", VStr "#ff9800")]])].

Definition averageRevenueChart (data : list (Row num)) : value num :=
  VObj [("labels", VArr (map VStr (products data)));
        ("datasets",
         VArr [VObj [("label", VStr "Average Revenue per Product");
                     ("data", VArr (map VNum (averageRevenue data)));
                     ("backgroundColor", VStr "#4caf50")]])].

Definition scatterPlotData (data : list (Row num)) : value num :=
  VObj [("datasets",
         VArr [VObj [("label", VStr "Revenue vs Quantity Sold");
                     ("data", VArr (map VPoint (revenueVsQuantity data)));
                     ("backgroundColor", VStr "#9c27b0");
                     ("borderColor", VStr "#9c27b0");
                     ("borderWidth", VNum one)]])].

Definition monthlyGrowthChart (data : list (Row num)) : value num :=
  VObj [("labels", VArr (map VStr (months data)));
        ("datasets",
         VArr [VObj [("label", VStr "Monthly Revenue Growth (%)");
                     ("data", VArr (map VNum (monthlyGrowth data)));
                     ("fill", VBool false);
                     ("borderColor", VStr "#f44336");
                     ("tension", VNum tenth)]])].

Definition createChartData (data : list (Row num)) : value num :=
  VObj [("revenueOverTime", revenueOverTime data);
        ("productRevenueChart", productRevenueChart data);
        ("quantitySoldChart", quantitySoldChart data);
        ("averageRevenueChart", averageRevenueChart data);
        ("scatterPlotData", scatterPlotData data);
        ("monthlyGrowthChart", monthlyGrowthChart data)].

End Aggregation.

Arguments Point num : clear implicits.

(** ** Reading the returned object *)

Section Views.

Context {num : Type}.

Definition as_num (v : value num) : option num :=
  match v with VNum n => Some n | _ => None end.

Definition as_str (v : value num) : option string :=
  match v with VStr s => Some s | _ => None end.

Definition as_point (v : value num) : option (Point num) :=
  match get "x" v, get "y" v with
  | Some (VNum a), Some (VNum b) => Some {| x := a; y := b |}
  | _, _ => None
  end.

(** Reads every element of an array with [f]; fails if one of them is
    not of the expected kind. *)
Fixpoint read_all {A : Type} (f : value num -> option A) (items : list (value num))
  : option (list A) :=
  match items with
  | [] => Some []
  | v :: rest =>
      match f v, read_all f rest with
      | Some a, Some l => Some (a :: l)
      | _, _ => None
      end
  end.

(** [chart.labels] *)
Definition chart_labels (chart : value num) : option (list string) :=
  match get "labels" chart with
  | Some (VArr items) => read_all as_str items
  | _ => None
  end.

(** [chart.datasets[0].data] *)
Definition series_data (chart : value num) : option (list (value num)) :=
  match get "datasets" chart with
  | Some (VArr (series :: _)) =>
      match get "data" series with
      | Some (VArr items) => Some items
      | _ => None
      end
  | _ => None
  end.

(** The numbers, respectively the points, of [chart.datasets[0].data]. *)
Definition chart_values (chart : value num) : option (list num) :=
  match series_data chart with
  | Some items => read_all as_num items
  | None => None
  end.

Definition chart_points (chart : value num) : option (list (Point num)) :=
  match series_data chart with
  | Some items => read_all as_point items
  | None => None
  end.

(** [out[name]] followed by one of the readers above. *)
Definition of_chart {A : Type} (read : value num -> option A) (name : string)
  (out : value num) : option A :=
  match get name out with
  | Some chart => read chart
  | None => None
  end.

End Views.

(** ** The wording of the specification *)

Section Specification.

Context {num : Type} `{Number num}.

(** The sum of a sequence of numbers, accumulated from [0] from left to
    right. *)
Definition sum (values : list num) : num := fold_left add values zero.

(** The substring of a date before its first ['/'] (the whole date if it
    has none). *)
Fixpoint before_first_slash (date : string) : string :=
  match date with
  | EmptyString => EmptyString
  | String c rest =>
      if Ascii.eqb c "/" then EmptyString else String c (before_first_slash rest)
  end.

(** The month key of a date: that substring with the fixed year suffix. *)
Definition month_key (date : string) : string :=
  (before_first_slash date ++ "/2023")%string.

(** Deduplication in first-occurrence order: an element is kept where it
    first occurs and removed from the rest. *)
Fixpoint dedup (l : list string) : list string :=
  match l with
  | [] => []
  | k :: rest => k :: filter (fun k' => negb (String.eqb k' k)) (dedup rest)
  end.

(** The rows of one product, and the rows whose date starts with a key. *)
Definition rows_of_product (product : string) (data : list (Row num)) : list (Row num) :=
  filter (fun item => String.eqb (Product_Name item) product) data.

Definition rows_starting_with (key : string) (data : list (Row num)) : list (Row num) :=
  filter (fun item => String.prefix key (Date item)) data.

(** The total revenue and the total quantity of one product. *)
Definition revenue_of (data : list (Row num)) (product : string) : num :=
  sum (map Total_Revenue (rows_of_product product data)).

Definition quantity_of (data : list (Row num)) (product : string) : num :=
  sum (map Quantity_Sold (rows_of_product product data)).

(** The total revenue of the rows whose date starts with a month key. *)
Definition revenue_of_month (data : list (Row num)) (key : string) : num :=
  sum (map Total_Revenue (rows_starting_with key data)).

(** The total revenue of the rows that belong to a month, in the sense that
    their own month key is that month. *)
Definition revenue_in_month (data : list (Row num)) (key : string) : num :=
  sum (map Total_Revenue
         (filter (fun item => String.eqb (month_key (Date item)) key) data)).

(** Month-over-month growth in percent. *)
Definition growth (previous current : num) : num :=
  mul (div (sub current previous) previous) hundred.

(** [values] has one entry per label, and the entry at an index is what
    [describe] says of the label at that index. *)
Definition described_by {A : Type} (describe : string -> A)
  (labels : list string) (values : list A) : Prop :=
  List.length values = List.length labels /\
  forall i label, nth_error labels i = Some label ->
                  nth_error values i = Some (describe label).

End Specification.

(** Whether a string contains a ['.'], and what follows its last ['.']
    (all of the string if it has none). *)
Fixpoint has_dot (s : string) : bool :=
  match s with
  | EmptyString => false
  | String c rest => Ascii.eqb c "." || has_dot rest
  end.

Fixpoint after_last_dot (s : string) : string :=
  match s with
  | EmptyString => EmptyString
  | String c rest =>
      if has_dot rest then after_last_dot rest
      else if Ascii.eqb c "." then rest
      else String c rest
  end.

(** The extension of a file name, case-insensitively. *)
Definition extension (file_name : string) : string :=
  toLowerCase (after_last_dot file_name).

(** ** Results of statements that may throw *)

(** What running a piece of code on a state [S] gives: a value and the
    state it leaves, or an exception and the state at the throw. *)
Inductive outcome (S A : Type) : Type :=
| Returned (a : A) (s : S)
| Thrown (error : string) (s : S).

Arguments Returned {S A} a s.
Arguments Thrown {S A} error s.

Definition M (S A : Type) : Type := S -> outcome S A.

Definition ret {S A : Type} (a : A) : M S A := fun s => Returned a s.

Definition throw {S A : Type} (error : string) : M S A := fun s => Thrown error s.

Definition bind {S A B : Type} (m : M S A) (k : A -> M S B) : M S B :=
  fun s =>
    match m s with
    | Returned a s' => k a s'
    | Thrown error s' => Thrown error s'
    end.

(** [try { m } catch (error) { handler }]: what [m] changed before it
    threw stays changed. *)
Definition try_catch {S A : Type} (m : M S A) (handler : string -> M S A) : M S A :=
  fun s =>
    match m s with
    | Returned a s' => Returned a s'
    | Thrown error s' => handler error s'
    end.

Notation "v <- m ;; k" := (bind m (fun v => k))
  (at level 61, m at next level, right associativity).
Notation "m ;; k" := (bind m (fun _ => k))
  (at level 61, right associativity).

(** ** [handleFileChange] *)

Section Dashboard.

(** The shape of a parsed row is whatever the two parsing libraries
    produce. *)
Variable row : Type.

Record File : Type := mkFile { name : string; contents : string }.

(** [Papa.parse(file, { header: true, complete })]: the [result.data]
    handed to [complete]. *)
Variable Papa_parse : File -> list row.

(** The body of [reader.onload] up to [setData]: [XLSX.read] of the binary
    string, the first sheet, [XLSX.utils.sheet_to_json]; [None] when one
    of the three throws. *)
Variable XLSX_first_sheet_to_json : string -> option (list row).

(** The state [data] of the component ([useState(null)]). *)
Definition State : Type := option (list row).

Definition setData (rows : list row) : M State unit :=
  fun _ => Returned tt (Some rows).

(** The asynchronous work [handleFileChange] starts, if any. *)
Inductive Task : Type :=
| PapaParse (file : File)
| ReadAsBinaryString (file : File).

(** [file.name.split(".").pop().toLowerCase()]; calling [toLowerCase] on
    [undefined] is a [TypeError]. *)
Definition fileExtension (file : File) : M State string :=
  match pop (split "." (name file)) with
  | Some last => ret (toLowerCase last)
  | None => throw "TypeError"
  end.

Definition handleFileChange (files : list File) : M State (option Task) :=
  match nth_error files 0 with
  | Some file =>
      fileExtension <- fileExtension file ;;
      if String.eqb fileExtension "csv" then
        ret (Some (PapaParse file))
      else if String.eqb fileExtension "xls" || String.eqb fileExtension "xlsx" then
        ret (Some (ReadAsBinaryString file))
      else ret None
  | None => ret None
  end.

(** The callbacks: [complete] of the CSV parser and [onload] of the file
    reader. *)
Definition callback (task : Task) : M State unit :=
  match task with
  | PapaParse file => setData (Papa_parse file)
  | ReadAsBinaryString file =>
      match XLSX_first_sheet_to_json (contents file) with
      | Some jsonData => setData jsonData
      | None => throw "Error"
      end
  end.

(** Selecting files and letting the started work complete. *)
Definition select_files (files : list File) : M State unit :=
  task <- handleFileChange files ;;
  match task with
  | Some t => callback t
  | None => ret tt
  end.

End Dashboard.

Arguments fileExtension {row} file _.
Arguments handleFileChange {row} files _.

(** ** [POST /upload] *)

Section UploadService.

(** Parsed JSON, and [JSON.parse]; [None] is a [SyntaxError]. *)
Variable json : Type.
Variable JSON_parse : string -> option json.

(** [req.file] as [multer] leaves it: absent, or the bytes held in
    memory. *)
Record UploadedFile : Type := mkUploadedFile { buffer : string }.
Record Request : Type := mkRequest { file : option UploadedFile }.

Inductive Body : Type :=
| Text (text : string)
| Json (parsed : json).

(** The response under construction: its status code and what was sent,
    if anything. *)
Record Response : Type := mkResponse { statusCode : nat; sent : option Body }.

Definition fresh_response : Response := {| statusCode := 200; sent := None |}.

(** [res.status(code)] sets the status code. *)
Definition status (code : nat) : M Response unit :=
  fun res => Returned tt {| statusCode := code; sent := sent res |}.

(** [res.send(body)] is the web framework's: what it makes of a body, and
    whether it throws, is not this program's. *)
Variable send : Body -> M Response unit.

(** [buffer.toString()] *)
Definition toString (buf : string) : string := buf.

Definition parse (text : string) : M Response json :=
  match JSON_parse text with
  | Some parsed => ret parsed
  | None => throw "SyntaxError"
  end.

Definition upload (req : Request) : M Response unit :=
  match file req with
  | None => status 400 ;; send (Text "No file uploaded.")
  | Some f =>
      try_catch
        (jsonData <- parse (toString (buffer f)) ;;
         status 200 ;; send (Json jsonData))
        (fun error => status 400 ;; send (Text "Invalid JSON file."))
  end.

End UploadService.

Arguments Text {json} text.
Arguments Json {json} parsed.
Arguments mkResponse {json} statusCode sent.
Arguments statusCode {json} _.
Arguments sent {json} _.
Arguments fresh_response {json}.
Arguments status {json} code _.
Arguments upload {json} JSON_parse send req _.

(** A [send] that transmits the body it is given and keeps the status
    code. *)
Definition send_body {json : Type} (body : Body json) : M (Response json) unit :=
  fun res => Returned tt {| statusCode := statusCode res; sent := Some body |}.






(** A parser of the three JSON literals, to run the handler on concrete
    requests. *)
Inductive literal : Type := JNull | JTrue | JFalse.

Definition parse_literal (text : string) : option literal :=
  if String.eqb text "null" then Some JNull
  else if String.eqb text "true" then Some JTrue
  else if String.eqb text "false" then Some JFalse
  else None.

Definition example_rows : list (Row float) :=
  [ mkRow "1/5/2023" "A" 100%float 10%float;
    mkRow "1/6/2023" "B" 50%float 5%float;
    mkRow "2/1/2023" "A" 200%float 20%float ].

(** Three rows whose revenues are not whole numbers. *)
Definition rounding_rows : list (Row float) :=
  [ mkRow "1/5/2023" "A" 0.2%float 2%float;
    mkRow "1/6/2023" "B" 0.1%float 1%float;
    mkRow "2/1/2023" "A" 0.3%float 3%float ].

(** Rows dated by month and year only. *)
Definition month_year_rows : list (Row float) :=
  [ mkRow "1/2023" "A" 100%float 10%float;
    mkRow "1/2023" "B" 50%float 5%float;
    mkRow "2/2023" "A" 200%float 20%float ].

(** The number that a whole amount is. *)
Definition float_of_Z (n : Z) : float := PrimFloat.of_uint63 (Uint63.of_Z n).

(** The sum of whole amounts. *)
Definition total (amounts : list Z) : Z := fold_right Z.add 0%Z amounts.

(** The binary64 representation of a positive whole amount below 2^53:
    its bits shifted up to a mantissa of 53 bits, with the exponent that
    undoes the shift. *)
Definition normal_form (c : positive) : spec_float :=
  S754_finite false
    (Z.to_pos (Zpos c * 2 ^ (53 - Zpos (digits2_pos c))))
    (Zpos (digits2_pos c) - 53).

(** ** The rest of the component *)

Section Presentation.

Context {num : Type} `{Number num}.





(** The rows with their two amounts exchanged. *)
Definition exchange_amounts (data : list (Row num)) : list (Row num) :=
  map (fun item =>
         mkRow (Date item) (Product_Name item) (Quantity_Sold item) (Total_Revenue item))
      data.

End Presentation.

(** Whether a date contains a ['/'], what follows its first ['/'] (nothing
    if it has none), and whether that begins with the year of the month
    keys. *)
Fixpoint has_slash (date : string) : bool :=
  match date with
  | EmptyString => false
  | String c rest => Ascii.eqb c "/" || has_slash rest
  end.

Fixpoint after_first_slash (date : string) : string :=
  match date with
  | EmptyString => EmptyString
  | String c rest => if Ascii.eqb c "/" then rest else after_first_slash rest
  end.

Definition year_follows_month (date : string) : bool :=
  String.prefix "2023" (after_first_slash date).

(** Rows whose first month has no revenue. *)
Definition late_start_rows : list (Row float) :=
  [ mkRow "1/2023" "A" 0%float 0%float;
    mkRow "2/2023" "A" 200%float 20%float ].

(** ** Fields that are text *)

(** A field of a row as a parser may yield it: a number, or the text of the
    cell. *)
Inductive cell : Type :=
| CNum (n : float)
| CStr (s : string).

Section Coercions.

(** [String(n)] and [Number(s)], the conversions of the language. *)
Variable Number_toString : float -> string.
Variable Number_ofString : string -> float.

Definition ToString (c : cell) : string :=
  match c with
  | CNum n => Number_toString n
  | CStr s => s
  end.

Definition ToNumber (c : cell) : float :=
  match c with
  | CNum n => n
  | CStr s => Number_ofString s
  end.

(** [a + b] adds two numbers and concatenates as soon as one operand is a
    string; [a - b], [a * b] and [a / b] convert both operands to
    numbers. *)
Definition plus (a b : cell) : cell :=
  match a, b with
  | CNum x, CNum y => CNum (PrimFloat.add x y)
  | _, _ => CStr (ToString a ++ ToString b)
  end.

Definition arithmetic (op : float -> float -> float) (a b : cell) : cell :=
  CNum (op (ToNumber a) (ToNumber b)).

Definition cell_number : Number cell := {|
  zero := CNum 0%float;
  tenth := CNum 0.1%float;
  one := CNum 1%float;
  hundred := CNum 100%float;
  NaN := CNum nan;
  add := plus;
  sub := arithmetic PrimFloat.sub;
  mul := arithmetic PrimFloat.mul;
  div := arithmetic PrimFloat.div
|}.

End Coercions.

(** The example rows as a CSV parser that keeps every field as text yields
    them. *)
Definition text_rows : list (Row cell) :=
  [ mkRow "1/5/2023" "A" (CStr "100") (CStr "10");
    mkRow "1/6/2023" "B" (CStr "50") (CStr "5");
    mkRow "2/1/2023" "A" (CStr "200") (CStr "20") ].

(** ** Rows as the parsers yield them *)

(** A parsed record whose [Date] may be any value: text, a number (a date
    cell of a spreadsheet read as its serial number), [undefined] when the
    column is missing. *)
Record ParsedRow (num : Type) : Type := mkParsedRow {
  parsed_Date : value num;
  parsed_Product_Name : string;
  parsed_Total_Revenue : num;
  parsed_Quantity_Sold : num
}.

Arguments mkParsedRow {num} _ _ _ _.
Arguments parsed_Date {num} _.
Arguments parsed_Product_Name {num} _.
Arguments parsed_Total_Revenue {num} _.
Arguments parsed_Quantity_Sold {num} _.

Section ParsedRows.

Context {S num : Type} `{Number num}.

(** [arr.map(f)] and [arr.filter(f)] with a callback that may throw: the
    elements are visited from left to right and the first exception ends
    the visit. *)
Fixpoint mapM {A B : Type} (f : A -> M S B) (arr : list A) : M S (list B) :=
  match arr with
  | [] => ret []
  | a :: rest => b <- f a ;; bs <- mapM f rest ;; ret (b :: bs)
  end.

Fixpoint filterM {A : Type} (f : A -> M S bool) (arr : list A) : M S (list A) :=
  match arr with
  | [] => ret []
  | a :: rest =>
      keep <- f a ;; kept <- filterM f rest ;;
      ret (if keep then a :: kept else kept)
  end.

(** [date.split(sep)] and [date.startsWith(p)]: only a string has these
    methods; calling them on anything else is a [TypeError]. *)
Definition split_of (sep : ascii) (date : value num) : M S (list string) :=
  match date with
  | VStr s => ret (split sep s)
  | _ => throw "TypeError"
  end.

Definition startsWith_of (date : value num) (p : string) : M S bool :=
  match date with
  | VStr s => ret (startsWith s p)
  | _ => throw "TypeError"
  end.

Definition is_text (v : value num) : bool :=
  match v with
  | VStr _ => true
  | _ => false
  end.

(** A row as a parsed record, and the fields of a parsed record as a row:
    its date when that is text, its product and its two amounts. *)
Definition parsed (item : Row num) : ParsedRow num :=
  mkParsedRow (VStr (Date item)) (Product_Name item)
              (Total_Revenue item) (Quantity_Sold item).

Definition row_of (item : ParsedRow num) : Row num :=
  mkRow (match parsed_Date item with VStr s => s | _ => EmptyString end)
        (parsed_Product_Name item)
        (parsed_Total_Revenue item) (parsed_Quantity_Sold item).

(** [createChartData] on parsed records.  Reading [item.Date] never throws;
    the month keys call [split] on every date and the monthly revenues call
    [startsWith] on the dates; the product charts, the scatter plot and the
    values of the first chart do not read the dates and are those of the
    records' other fields. *)
Definition createChartData_parsed (data : list (ParsedRow num)) : M S (value num) :=
  let dates := map (fun item => parsed_Date item) data in
  let rows := map row_of data in
  monthKeys <-
    mapM (fun date =>
            pieces <- split_of "/" date ;;
            ret (nth 0 pieces "undefined" ++ "/2023")%string)
         dates ;;
  let months := Set_spread monthKeys in
  monthlyRevenue <-
    mapM (fun month =>
            counted <- filterM (fun item => startsWith_of (parsed_Date item) month) data ;;
            ret (reduce (fun sum item => add sum (parsed_Total_Revenue item)) zero counted))
         months ;;
  let monthlyGrowth :=
    map_indexed
      (fun revenue index arr =>
         if Nat.eqb index 0 then zero
         else mul (div (sub revenue (nth (index - 1) arr NaN))
                       (nth (index - 1) arr NaN))
                  hundred)
      monthlyRevenue in
  ret (VObj [("revenueOverTime",
              VObj [("labels", VArr dates);
                    ("datasets",
                     VArr [VObj [("label", VStr "Revenue Over Time");
                                 ("data", VArr (map VNum (totalRevenue rows)));
                                 ("fill", VBool false);
                                 ("borderColor", VStr "#00bcd4");
                                 ("tension", VNum tenth)]])]);
             ("productRevenueChart", productRevenueChart rows);
             ("quantitySoldChart", quantitySoldChart rows);
             ("averageRevenueChart", averageRevenueChart rows);
             ("scatterPlotData", scatterPlotData rows);
             ("monthlyGrowthChart",
              VObj [("labels", VArr (map VStr months));
                    ("datasets",
                     VArr [VObj [("label", VStr "Monthly Revenue Growth (%)");
                                 ("data", VArr (map VNum monthlyGrowth));
                                 ("fill", VBool false);
                                 ("borderColor", VStr "#f44336");
                                 ("tension", VNum tenth)]])])]).

End ParsedRows.

(** A sheet whose date cell was read as its serial number, and a sheet
    without a [Date] column. *)
Definition serial_date_rows : list (ParsedRow float) :=
  [ mkParsedRow (VNum 44931%float) "A" 100%float 10%float ].

Definition missing_date_rows : list (ParsedRow float) :=
  [ mkParsedRow (VStr "1/5/2023") "A" 100%float 10%float;
    mkParsedRow VUndefined "B" 50%float 5%float ].

(** Whether a text consists of ASCII characters only. *)
Fixpoint is_ascii (s : string) : bool :=
  match s with
  | EmptyString => true
  | String c rest => (nat_of_ascii c <? 128)%nat && is_ascii rest
  end.

(** * Properties *)

(** ** Strings, arrays and sets *)

Lemma split_nonempty (sep : ascii) (s : string) : split sep s <> [].
Proof.
  destruct s as [|c rest]; simpl.
  - discriminate.
  - destruct (Ascii.eqb c sep); [discriminate|].
    destruct (split sep rest); discriminate.
Qed.

Lemma first_piece_of_split (date default : string) :
  nth 0 (split "/" date) default = before_first_slash date.
Proof.
  induction date as [|c rest IH]; simpl.
  - reflexivity.
  - destruct (Ascii.eqb c "/"); [reflexivity|].
    destruct (split "/" rest) as [|piece pieces] eqn:E.
    + exfalso. exact (split_nonempty _ _ E).
    + simpl in *. now rewrite IH.
Qed.

Lemma filter_twice {A : Type} (f g : A -> bool) (l : list A) :
  filter f (filter g l) = filter (fun a => g a && f a) l.
Proof.
  induction l as [|a l IH]; simpl; [reflexivity|].
  destruct (g a); simpl; [destruct (f a)|]; now rewrite IH.
Qed.

Lemma filter_all {A : Type} (f : A -> bool) (l : list A) :
  (forall a, In a l -> f a = true) -> filter f l = l.
Proof.
  induction l as [|a l IH]; simpl; intros Hall; [reflexivity|].
  rewrite (Hall a (or_introl eq_refl)), IH; auto.
Qed.

(** Adding the elements of [l] to a set lists, after the elements already
    there, the first occurrences of those that are new. *)
Lemma fold_Set_add (l acc : list string) :
  fold_left Set_add l acc
  = acc ++ filter (fun k => negb (existsb (String.eqb k) acc)) (dedup l).
Proof.
  revert acc. induction l as [|k rest IH]; intros acc; simpl.
  - now rewrite app_nil_r.
  - rewrite IH. unfold Set_add.
    destruct (existsb (String.eqb k) acc) eqn:Hk; simpl.
    + f_equal. rewrite filter_twice. apply filter_ext. intros k'.
      destruct (String.eqb k' k) eqn:Hk'; [|reflexivity].
      apply String.eqb_eq in Hk'. subst k'. now rewrite Hk.
    + rewrite <- app_assoc. simpl. do 2 f_equal.
      rewrite filter_twice. apply filter_ext. intros k'.
      rewrite existsb_app. simpl. rewrite orb_false_r, negb_orb.
      apply andb_comm.
Qed.

Lemma Set_spread_dedup (l : list string) : Set_spread l = dedup l.
Proof.
  unfold Set_spread. rewrite fold_Set_add. simpl.
  apply filter_all. reflexivity.
Qed.

Lemma In_dedup (l : list string) (k : string) : In k (dedup l) <-> In k l.
Proof.
  induction l as [|a l IH]; simpl; [tauto|].
  rewrite filter_In, IH, negb_true_iff, String.eqb_neq.
  destruct (string_dec a k) as [->|Hak]; [tauto|].
  split; [tauto|]. intros [?|?]; [tauto|]. right. split; congruence.
Qed.

Lemma NoDup_dedup (l : list string) : NoDup (dedup l).
Proof.
  induction l as [|a l IH]; simpl; constructor.
  - rewrite filter_In, String.eqb_refl. intros [_ Hf]. discriminate.
  - now apply NoDup_filter.
Qed.

Lemma length_map_from {A B : Type} (f : A -> nat -> B) (index : nat) (arr : list A) :
  List.length (map_from f index arr) = List.length arr.
Proof.
  revert index. induction arr as [|a arr IH]; intros index; simpl; [reflexivity|].
  now rewrite IH.
Qed.

Lemma nth_error_map_from {A B : Type} (f : A -> nat -> B) (index : nat)
  (arr : list A) (i : nat) :
  nth_error (map_from f index arr) i
  = option_map (fun a => f a (index + i)) (nth_error arr i).
Proof.
  revert index i. induction arr as [|a arr IH]; intros index [|i]; simpl;
    try reflexivity.
  - now rewrite Nat.add_0_r.
  - rewrite IH. now rewrite Nat.add_succ_comm.
Qed.

Lemma fold_left_map {A B C : Type} (f : C -> B -> C) (g : A -> B) (l : list A) (c : C) :
  fold_left (fun acc a => f acc (g a)) l c = fold_left f (map g l) c.
Proof.
  revert c. induction l as [|a l IH]; intros c; simpl; [reflexivity|apply IH].
Qed.

(** ** Reading what was written *)

Lemma read_all_map {num A : Type} (read : value num -> option A) (write : A -> value num)
  (l : list A) :
  (forall a, read (write a) = Some a) -> read_all read (map write l) = Some l.
Proof.
  intros Hrw. induction l as [|a l IH]; simpl; [reflexivity|].
  now rewrite Hrw, IH.
Qed.

Lemma read_strings {num : Type} (l : list string) :
  read_all (@as_str num) (map VStr l) = Some l.
Proof. now apply read_all_map. Qed.

Lemma read_numbers {num : Type} (l : list num) :
  read_all as_num (map VNum l) = Some l.
Proof. now apply read_all_map. Qed.

Lemma read_points {num : Type} (l : list (Point num)) :
  read_all as_point (map VPoint l) = Some l.
Proof. apply read_all_map. now intros [a b]. Qed.


(** ** What each chart of the returned object holds *)

Section Charts.

Context {num : Type} `{Number num}.

Variable data : list (Row num).

Lemma reduce_revenue (rows : list (Row num)) :
  reduce (fun sum item => add sum (Total_Revenue item)) zero rows
  = sum (map Total_Revenue rows).
Proof. apply fold_left_map. Qed.

Lemma reduce_quantity (rows : list (Row num)) :
  reduce (fun sum item => add sum (Quantity_Sold item)) zero rows
  = sum (map Quantity_Sold rows).
Proof. apply fold_left_map. Qed.

Lemma revenueOverTime_labels :
  of_chart chart_labels "revenueOverTime" (createChartData data) = Some (dates data).
Proof. apply read_strings. Qed.

Lemma revenueOverTime_values :
  of_chart chart_values "revenueOverTime" (createChartData data)
  = Some (totalRevenue data).
Proof. apply read_numbers. Qed.

Lemma productRevenueChart_labels :
  of_chart chart_labels "productRevenueChart" (createChartData data)
  = Some (products data).
Proof. apply read_strings. Qed.

Lemma productRevenueChart_values :
  of_chart chart_values "productRevenueChart" (createChartData data)
  = Some (map (revenue_of data) (products data)).
Proof.
  etransitivity; [apply read_numbers|]. f_equal.
  apply map_ext. intros product. apply reduce_revenue.
Qed.

Lemma quantitySoldChart_labels :
  of_chart chart_labels "quantitySoldChart" (createChartData data)
  = Some (products data).
Proof. apply read_strings. Qed.

Lemma quantitySoldChart_values :
  of_chart chart_values "quantitySoldChart" (createChartData data)
  = Some (map (quantity_of data) (products data)).
Proof.
  etransitivity; [apply read_numbers|]. f_equal.
  apply map_ext. intros product. apply reduce_quantity.
Qed.

Lemma averageRevenueChart_labels :
  of_chart chart_labels "averageRevenueChart" (createChartData data)
  = Some (products data).
Proof. apply read_strings. Qed.

Lemma averageRevenueChart_values :
  of_chart chart_values "averageRevenueChart" (createChartData data)
  = Some (map (fun product => div (revenue_of data product) (quantity_of data product))
              (products data)).
Proof.
  etransitivity; [apply read_numbers|]. f_equal.
  apply map_ext. intros product. cbv zeta.
  now rewrite reduce_revenue, reduce_quantity.
Qed.

Lemma scatterPlotData_points :
  of_chart chart_points "scatterPlotData" (createChartData data)
  = Some (map (fun product => {| x := quantity_of data product; y := revenue_of data product |})
              (products data)).
Proof.
  etransitivity; [apply read_points|]. f_equal.
  apply map_ext. intros product. cbv zeta.
  now rewrite reduce_revenue, reduce_quantity.
Qed.

Lemma monthlyGrowthChart_labels :
  of_chart chart_labels "monthlyGrowthChart" (createChartData data)
  = Some (months data).
Proof. apply read_strings. Qed.

Lemma monthlyGrowthChart_values :
  of_chart chart_values "monthlyGrowthChart" (createChartData data)
  = Some (monthlyGrowth data).
Proof. apply read_numbers. Qed.

End Charts.

(** ** The worked example *)

(** C1: on the three example rows the program returns the distinct
    products [A, B], the revenues [300, 50], the quantities [30, 5], the
    averages [10, 10] and the months [1/2023, 2/2023], as the example says;
    but its monthly revenue is [0, 0] and its monthly growth [0, NaN], not
    [150, 200] and [0, 33.33...]: no date of the form month/day/year starts
    with a month key such as [1/2023]. *)
Theorem example_rows_charts :
  let out := createChartData example_rows in
  products example_rows = ["A"; "B"] /\
  of_chart chart_labels "productRevenueChart" out = Some ["A"; "B"] /\
  of_chart chart_values "productRevenueChart" out = Some [300; 50]%float /\
  of_chart chart_values "quantitySoldChart" out = Some [30; 5]%float /\
  of_chart chart_values "averageRevenueChart" out = Some [10; 10]%float /\
  of_chart chart_labels "monthlyGrowthChart" out = Some ["1/2023"; "2/2023"] /\
  monthlyRevenue example_rows = [0; 0]%float /\
  of_chart chart_values "monthlyGrowthChart" out = Some [0%float; nan].
Proof. vm_compute. repeat split; reflexivity. Qed.

(** The figures of the example are those of rows counted under their own
    month key. *)
Example example_rows_by_own_month :
  map (revenue_in_month example_rows) (months example_rows) = [150; 200]%float /\
  growth 150%float 200%float = 33.333333333333329%float.
Proof. vm_compute. split; reflexivity. Qed.

(** Only a date that continues with the year right after its month starts
    with its month key. *)
Example month_year_rows_growth :
  startsWith "1/5/2023" "1/2023" = false /\
  startsWith "1/2023" "1/2023" = true /\
  months month_year_rows = ["1/2023"; "2/2023"] /\
  monthlyRevenue month_year_rows = [150; 200]%float /\
  monthlyGrowth month_year_rows = [0; 33.333333333333329]%float.
Proof. vm_compute. repeat split; reflexivity. Qed.

(** ** The month axis *)

(** C2: the labels of the monthly growth chart are the month keys of the
    rows (the part of [Date] before its first ['/'], followed by the fixed
    year suffix), deduplicated in first-occurrence order; and the monthly
    revenue at an index is the sum of [Total Revenue] over exactly the rows
    whose [Date] starts with the month key at that index. *)
Theorem month_axis_and_monthly_revenue
  {num : Type} `{Number num} (data : list (Row num)) :
  of_chart chart_labels "monthlyGrowthChart" (createChartData data)
  = Some (months data) /\
  months data = dedup (map (fun item => month_key (Date item)) data) /\
  described_by
    (fun key => sum (map Total_Revenue (rows_starting_with key data)))
    (months data) (monthlyRevenue data).
Proof.
  split; [apply monthlyGrowthChart_labels|]. split.
  - unfold months, dates. rewrite Set_spread_dedup, map_map. f_equal.
    apply map_ext. intros item. unfold month_key.
    now rewrite first_piece_of_split.
  - unfold described_by, monthlyRevenue. split; [apply length_map|].
    intros i key Hkey. rewrite nth_error_map, Hkey. simpl. f_equal.
    apply reduce_revenue.
Qed.

(** ** Monthly growth *)

(** C3, as stated, fails on the empty row sequence: the growth sequence is
    then empty and has no entry at index 0. *)
Lemma monthlyGrowth_of_no_rows :
  monthlyGrowth (@nil (Row float)) = [] /\
  nth_error (monthlyGrowth (@nil (Row float))) 0 <> Some zero.
Proof. vm_compute. split; [reflexivity|discriminate]. Qed.

(** C3, amended: on a non-empty row sequence the growth at index 0 is [0]
    and, at every later index of the month axis, it is the difference of the
    monthly revenue to the one before, divided by the one before, times 100
    (whatever the previous revenue is, so also when it is not zero). *)
Theorem monthlyGrowth_formula
  {num : Type} `{Number num} (data : list (Row num)) :
  data <> [] ->
  nth_error (monthlyGrowth data) 0 = Some zero /\
  forall i, 0 < i -> i < List.length (months data) ->
    exists previous current,
      nth_error (monthlyRevenue data) (i - 1) = Some previous /\
      nth_error (monthlyRevenue data) i = Some current /\
      nth_error (monthlyGrowth data) i
      = Some (mul (div (sub current previous) previous) hundred).
Proof.
  intros Hdata. unfold monthlyGrowth, map_indexed. split.
  - rewrite nth_error_map_from.
    destruct (monthlyRevenue data) as [|revenue rest] eqn:Hrev; [|reflexivity].
    exfalso. apply (f_equal (@List.length num)) in Hrev.
    unfold monthlyRevenue in Hrev. rewrite length_map in Hrev.
    destruct data as [|item data]; [contradiction|].
    unfold months, dates in Hrev. rewrite Set_spread_dedup in Hrev.
    simpl in Hrev. discriminate.
  - intros i Hpos Hi.
    assert (List.length (monthlyRevenue data) = List.length (months data)) as Hlen
      by apply length_map.
    destruct (nth_error (monthlyRevenue data) (i - 1)) as [previous|] eqn:Hprev;
      [|apply nth_error_None in Hprev; lia].
    destruct (nth_error (monthlyRevenue data) i) as [current|] eqn:Hcur;
      [|apply nth_error_None in Hcur; lia].
    exists previous, current. repeat split.
    rewrite nth_error_map_from, Hcur. simpl.
    destruct (Nat.eqb_spec i 0) as [->|_]; [lia|].
    now rewrite (nth_error_nth _ _ _ Hprev).
Qed.

(** The growth formula on the example rows. *)
Lemma monthlyGrowth_formula_example :
  example_rows <> [] /\
  nth_error (monthlyGrowth example_rows) 0 = Some zero /\
  forall i, 0 < i -> i < List.length (months example_rows) ->
    exists previous current,
      nth_error (monthlyRevenue example_rows) (i - 1) = Some previous /\
      nth_error (monthlyRevenue example_rows) i = Some current /\
      nth_error (monthlyGrowth example_rows) i
      = Some (mul (div (sub current previous) previous) hundred).
Proof.
  split; [discriminate|].
  apply (monthlyGrowth_formula example_rows). discriminate.
Defined.

(** ** Labels and values *)

Lemma described_by_map {A : Type} (describe : string -> A) (labels : list string) :
  described_by describe labels (map describe labels).
Proof.
  split; [apply length_map|].
  intros i label Hlabel. now rewrite nth_error_map, Hlabel.
Qed.

(** C4: the product, quantity and average charts carry the same labels,
    the distinct products in first-occurrence order; in each of them, and in
    the scatter plot, the entry at an index is the figure of the product at
    that index; the row chart has one label and one value per row, the date
    and the revenue of that row; the growth chart has one value per month,
    computed from the revenue of the month at that index and of the one
    before.  (It holds for the empty row sequence as well.) *)
Theorem labels_and_values_aligned
  {num : Type} `{Number num} (data : list (Row num)) :
  let out := createChartData data in
  (of_chart chart_labels "productRevenueChart" out = Some (products data) /\
   of_chart chart_labels "quantitySoldChart" out = Some (products data) /\
   of_chart chart_labels "averageRevenueChart" out = Some (products data) /\
   products data = dedup (map Product_Name data)) /\
  (exists revenues quantities averages points,
     of_chart chart_values "productRevenueChart" out = Some revenues /\
     of_chart chart_values "quantitySoldChart" out = Some quantities /\
     of_chart chart_values "averageRevenueChart" out = Some averages /\
     of_chart chart_points "scatterPlotData" out = Some points /\
     described_by (revenue_of data) (products data) revenues /\
     described_by (quantity_of data) (products data) quantities /\
     described_by
       (fun product => div (revenue_of data product) (quantity_of data product))
       (products data) averages /\
     described_by
       (fun product =>
          {| x := quantity_of data product; y := revenue_of data product |})
       (products data) points) /\
  (exists labels values,
     of_chart chart_labels "revenueOverTime" out = Some labels /\
     of_chart chart_values "revenueOverTime" out = Some values /\
     List.length labels = List.length data /\
     List.length values = List.length data /\
     forall i item, nth_error data i = Some item ->
       nth_error labels i = Some (Date item) /\
       nth_error values i = Some (Total_Revenue item)) /\
  (exists labels values,
     of_chart chart_labels "monthlyGrowthChart" out = Some labels /\
     of_chart chart_values "monthlyGrowthChart" out = Some values /\
     List.length values = List.length labels /\
     forall i key, nth_error labels i = Some key ->
       nth_error values i
       = Some (match i with
               | 0 => zero
               | S j => growth (revenue_of_month data (nth j labels ""))
                               (revenue_of_month data key)
               end)).
Proof.
  intros out. subst out. repeat split.
  - apply productRevenueChart_labels.
  - apply quantitySoldChart_labels.
  - apply averageRevenueChart_labels.
  - unfold products. now rewrite Set_spread_dedup.
  - eexists _, _, _, _.
    rewrite productRevenueChart_values, quantitySoldChart_values,
      averageRevenueChart_values, scatterPlotData_points.
    repeat split; try apply length_map;
      intros i label Hlabel; now rewrite nth_error_map, Hlabel.
  - exists (dates data), (totalRevenue data).
    rewrite revenueOverTime_labels, revenueOverTime_values.
    unfold dates, totalRevenue. rewrite !length_map.
    do 4 (split; [reflexivity|]). intros i item Hitem.
    split; now rewrite nth_error_map, Hitem.
  - exists (months data), (monthlyGrowth data).
    rewrite monthlyGrowthChart_labels, monthlyGrowthChart_values.
    assert (monthlyRevenue data = map (revenue_of_month data) (months data)) as Hrev.
    { unfold monthlyRevenue. apply map_ext. intros key. apply reduce_revenue. }
    repeat split.
    + unfold monthlyGrowth, map_indexed.
      now rewrite length_map_from, Hrev, length_map.
    + intros i key Hkey. unfold monthlyGrowth, map_indexed.
      rewrite nth_error_map_from, Hrev, nth_error_map, Hkey. simpl.
      destruct i as [|j]; [reflexivity|]. simpl. rewrite Nat.sub_0_r.
      assert (j < List.length (months data)) as Hj.
      { apply Nat.lt_succ_l. apply nth_error_Some. now rewrite Hkey. }
      rewrite (nth_indep _ NaN (revenue_of_month data "")) by now rewrite length_map.
      now rewrite map_nth.
Qed.

(** C6: at every index of the distinct-product list, the scatter point has
    as [x] the value of the quantity chart and as [y] the value of the
    revenue chart at that index. *)
Theorem scatter_point_matches_bars
  {num : Type} `{Number num} (data : list (Row num)) (i : nat) :
  i < List.length (products data) ->
  let out := createChartData data in
  exists points quantities revenues point,
    of_chart chart_points "scatterPlotData" out = Some points /\
    of_chart chart_values "quantitySoldChart" out = Some quantities /\
    of_chart chart_values "productRevenueChart" out = Some revenues /\
    nth_error points i = Some point /\
    nth_error quantities i = Some (x point) /\
    nth_error revenues i = Some (y point).
Proof.
  intros Hi out. subst out.
  destruct (nth_error (products data) i) as [product|] eqn:Hproduct;
    [|apply nth_error_None in Hproduct; lia].
  eexists _, _, _, _.
  rewrite scatterPlotData_points, quantitySoldChart_values,
    productRevenueChart_values.
  repeat split; rewrite nth_error_map, Hproduct; reflexivity.
Qed.

(** The second product of the example rows. *)
Lemma scatter_point_matches_bars_example :
  exists points quantities revenues point,
    of_chart chart_points "scatterPlotData" (createChartData example_rows)
    = Some points /\
    of_chart chart_values "quantitySoldChart" (createChartData example_rows)
    = Some quantities /\
    of_chart chart_values "productRevenueChart" (createChartData example_rows)
    = Some revenues /\
    nth_error points 1 = Some point /\
    nth_error quantities 1 = Some (x point) /\
    nth_error revenues 1 = Some (y point).
Proof.
  apply (scatter_point_matches_bars example_rows 1). vm_compute. lia.
Defined.

(** ** The shape of the returned object *)

Lemma mapM_returns {S A B : Type} (f : A -> M S B) (g : A -> B)
  (arr : list A) (s : S) :
  (forall a, In a arr -> f a s = Returned (g a) s) ->
  mapM f arr s = Returned (map g arr) s.
Proof.
  induction arr as [|a arr IH]; intros Hf; [reflexivity|].
  cbn [mapM map]. unfold bind. rewrite (Hf a (or_introl eq_refl)).
  rewrite IH by (intros a' Ha'; apply Hf; now right). reflexivity.
Qed.

Lemma filterM_returns {S A : Type} (f : A -> M S bool) (keep : A -> bool)
  (arr : list A) (s : S) :
  (forall a, In a arr -> f a s = Returned (keep a) s) ->
  filterM f arr s = Returned (filter keep arr) s.
Proof.
  induction arr as [|a arr IH]; intros Hf; [reflexivity|].
  cbn [filterM filter]. unfold bind. rewrite (Hf a (or_introl eq_refl)).
  rewrite IH by (intros a' Ha'; apply Hf; now right). reflexivity.
Qed.

Lemma row_of_parsed {num : Type} (rows : list (Row num)) :
  map row_of (map parsed rows) = rows.
Proof.
  rewrite map_map. rewrite <- (map_id rows) at 2.
  apply map_ext. now intros [date product revenue quantity].
Qed.

Lemma parsed_row_of {num : Type} (data : list (ParsedRow num)) :
  forallb (fun item => is_text (parsed_Date item)) data = true ->
  map parsed (map row_of data) = data.
Proof.
  intros Htext. rewrite map_map. rewrite <- (map_id data) at 2.
  apply map_ext_in. intros [date product revenue quantity] Hitem.
  rewrite forallb_forall in Htext. specialize (Htext _ Hitem).
  destruct date; try discriminate. reflexivity.
Qed.

Lemma filter_parsed {num : Type} (keep : ParsedRow num -> bool) (rows : list (Row num)) :
  filter keep (map parsed rows) = map parsed (filter (fun item => keep (parsed item)) rows).
Proof.
  induction rows as [|item rows IH]; simpl; [reflexivity|].
  destruct (keep (parsed item)); simpl; now rewrite IH.
Qed.

(** On records whose dates are text, [createChartData] returns what it
    returns on the rows they are, and leaves the state as it is. *)
Lemma createChartData_parsed_of_rows {S num : Type} `{Number num}
  (rows : list (Row num)) (s : S) :
  createChartData_parsed (map parsed rows) s = Returned (createChartData rows) s.
Proof.
  unfold createChartData_parsed, bind at 1.
  rewrite (mapM_returns _
             (fun date => match date with
                          | VStr d => (nth 0 (split "/" d) "undefined" ++ "/2023")%string
                          | _ => EmptyString
                          end)).
  2:{ intros date Hdate. apply in_map_iff in Hdate as (item & <- & Hitem).
      apply in_map_iff in Hitem as (row & <- & _). reflexivity. }
  assert (Set_spread
            (map (fun date : value num =>
                    match date with
                    | VStr d => (nth 0 (split "/" d) "undefined" ++ "/2023")%string
                    | _ => EmptyString
                    end)
                 (map (fun item => parsed_Date item) (map parsed rows)))
          = months rows) as ->.
  { unfold months, dates. now rewrite !map_map. }
  unfold bind.
  rewrite (mapM_returns _
             (fun month =>
                reduce (fun sum item => add sum (Total_Revenue item)) zero
                       (filter (fun item => startsWith (Date item) month) rows))).
  2:{ intros month _. unfold bind.
      rewrite (filterM_returns _
                 (fun item => match parsed_Date item with
                              | VStr d => startsWith d month
                              | _ => false
                              end)).
      2:{ intros item Hitem. apply in_map_iff in Hitem as (row & <- & _).
          reflexivity. }
      unfold ret. f_equal. rewrite filter_parsed. unfold reduce.
      symmetry. apply (fold_left_map (fun sum item => add sum (parsed_Total_Revenue item))
                         parsed). }
  unfold ret. f_equal. rewrite row_of_parsed.
  unfold createChartData, revenueOverTime, monthlyGrowthChart, monthlyGrowth,
    monthlyRevenue.
  unfold dates at 1. now rewrite !map_map.
Qed.

Lemma bind_thrown {S A B : Type} (m : M S A) (k : A -> M S B)
  (error : string) (s s' : S) :
  m s = Thrown error s' -> bind m k s = Thrown error s'.
Proof. intros Hm. unfold bind. now rewrite Hm. Qed.

Lemma bind_returned {S A B : Type} (m : M S A) (k : A -> M S B)
  (a : A) (s s' : S) :
  m s = Returned a s' -> bind m k s = k a s'.
Proof. intros Hm. unfold bind. now rewrite Hm. Qed.

(** The first date that is no text makes the month keys, and with them
    [createChartData], throw. *)
Lemma createChartData_parsed_throws {S num : Type} `{Number num}
  (data : list (ParsedRow num)) (s : S) :
  forallb (fun item => is_text (parsed_Date item)) data = false ->
  createChartData_parsed data s = Thrown "TypeError" s.
Proof.
  intros Hdates. unfold createChartData_parsed. cbv zeta. apply bind_thrown.
  induction data as [|item data IH]; [discriminate|].
  cbn [forallb] in Hdates. cbn [map mapM].
  destruct (parsed_Date item) as [|n|d|b|items|entries]; try reflexivity.
  cbn [is_text andb] in Hdates.
  erewrite bind_returned by reflexivity.
  apply bind_thrown. exact (IH Hdates).
Qed.

(** C7, as stated, fails: on a sheet whose date cell was read as a number,
    and on a sheet that lacks the [Date] column, the program throws a
    [TypeError] and returns nothing. *)
Lemma createChartData_throws_on_serial_dates :
  createChartData_parsed serial_date_rows tt = Thrown "TypeError" tt /\
  createChartData_parsed missing_date_rows tt = Thrown "TypeError" tt /\
  forall out, createChartData_parsed serial_date_rows tt <> Returned out tt.
Proof.
  split; [reflexivity|]. split; [reflexivity|]. intros out. discriminate.
Qed.

(** C7, amended: the program returns exactly on the row sequences in which
    every date is text.  On the empty row sequence it returns its six
    charts with empty labels and empty values; on records whose dates are
    all text it returns the six charts of those rows; on records of which
    one has a date that is no text (a number, [undefined]) it throws a
    [TypeError]; in each case it leaves the state it runs in as it is. *)
Theorem createChartData_returns_on_text_dates
  {S num : Type} `{Number num} (s : S) :
  (exists out,
     createChartData_parsed (@nil (ParsedRow num)) s = Returned out s /\
     keys out = ["revenueOverTime"; "productRevenueChart"; "quantitySoldChart";
                 "averageRevenueChart"; "scatterPlotData"; "monthlyGrowthChart"] /\
     of_chart chart_labels "revenueOverTime" out = Some [] /\
     of_chart chart_values "revenueOverTime" out = Some [] /\
     of_chart chart_labels "productRevenueChart" out = Some [] /\
     of_chart chart_values "productRevenueChart" out = Some [] /\
     of_chart chart_labels "quantitySoldChart" out = Some [] /\
     of_chart chart_values "quantitySoldChart" out = Some [] /\
     of_chart chart_labels "averageRevenueChart" out = Some [] /\
     of_chart chart_values "averageRevenueChart" out = Some [] /\
     of_chart chart_points "scatterPlotData" out = Some [] /\
     of_chart chart_labels "monthlyGrowthChart" out = Some [] /\
     of_chart chart_values "monthlyGrowthChart" out = Some []) /\
  (forall rows : list (Row num),
     createChartData_parsed (map parsed rows) s = Returned (createChartData rows) s) /\
  (forall data : list (ParsedRow num),
     forallb (fun item => is_text (parsed_Date item)) data = true ->
     createChartData_parsed data s = Returned (createChartData (map row_of data)) s) /\
  (forall data : list (ParsedRow num),
     forallb (fun item => is_text (parsed_Date item)) data = false ->
     createChartData_parsed data s = Thrown "TypeError" s).
Proof.
  split; [|split; [|split]].
  - exists (createChartData (@nil (Row num))). repeat split.
  - intros rows. apply createChartData_parsed_of_rows.
  - intros data Htext. rewrite <- (parsed_row_of data Htext) at 1.
    apply createChartData_parsed_of_rows.
  - intros data Hdates. now apply createChartData_parsed_throws.
Qed.

(** C10: of the six charts returned, the scatter plot is the only one
    without a [labels] entry: it consists of its [datasets] entry alone,
    which holds the points, while each of the other five has labels. *)
Theorem only_scatter_has_no_labels
  {num : Type} `{Number num} (data : list (Row num)) :
  let out := createChartData data in
  keys out = ["revenueOverTime"; "productRevenueChart"; "quantitySoldChart";
              "averageRevenueChart"; "scatterPlotData"; "monthlyGrowthChart"] /\
  (forall name chart, get name out = Some chart ->
     (get "labels" chart = None <-> name = "scatterPlotData")) /\
  (exists scatter, get "scatterPlotData" out = Some scatter /\
                   keys scatter = ["datasets"] /\
                   chart_labels scatter = None /\
                   chart_points scatter = Some (revenueVsQuantity data)) /\
  (exists l1 l2 l3 l4 l5,
     of_chart chart_labels "revenueOverTime" out = Some l1 /\
     of_chart chart_labels "productRevenueChart" out = Some l2 /\
     of_chart chart_labels "quantitySoldChart" out = Some l3 /\
     of_chart chart_labels "averageRevenueChart" out = Some l4 /\
     of_chart chart_labels "monthlyGrowthChart" out = Some l5).
Proof.
  intros out. subst out. split; [reflexivity|]. split; [|split].
  - intros name chart. unfold createChartData, get, lookup.
    repeat match goal with
           | |- context [String.eqb name ?k] =>
               destruct (String.eqb_spec name k) as [->|]
           end;
      intros Hchart; inversion Hchart; subst chart; simpl;
      split; congruence.
  - exists (scatterPlotData data). repeat split.
    apply read_points.
  - exists (dates data), (products data), (products data), (products data),
      (months data).
    repeat split; apply read_strings.
Qed.

(** ** Selecting a file *)

Lemma split_without_dot (s : string) : has_dot s = false -> split "." s = [s].
Proof.
  induction s as [|c rest IH]; simpl; intros Hdot; [reflexivity|].
  apply orb_false_iff in Hdot as [Hc Hrest].
  now rewrite Hc, (IH Hrest).
Qed.

Lemma split_with_dot (s : string) :
  has_dot s = true -> exists p q pieces, split "." s = p :: q :: pieces.
Proof.
  induction s as [|c rest IH]; simpl; intros Hdot; [discriminate|].
  destruct (Ascii.eqb c ".") eqn:Hc.
  - destruct (split "." rest) as [|p pieces] eqn:Hsplit.
    + exfalso. exact (split_nonempty _ _ Hsplit).
    + now exists EmptyString, p, pieces.
  - simpl in Hdot. destruct (IH Hdot) as (p & q & pieces & ->).
    now exists (String c p), q, pieces.
Qed.

Lemma pop_split_dot (s : string) : pop (split "." s) = Some (after_last_dot s).
Proof.
  induction s as [|c rest IH]; simpl; [reflexivity|].
  destruct (has_dot rest) eqn:Hdot.
  - destruct (split_with_dot rest Hdot) as (p & q & pieces & Hsplit).
    rewrite Hsplit in *. now destruct (Ascii.eqb c ".").
  - rewrite (split_without_dot rest Hdot). now destruct (Ascii.eqb c ".").
Qed.

(** C9: when the selected file's extension, lower-cased, is none of [csv],
    [xls] and [xlsx], [handleFileChange] returns without an exception and
    without starting a parser, so no rows are produced and the stored data
    is what it was. *)
Theorem unsupported_extension_is_ignored
  (row : Type) (Papa_parse : File -> list row)
  (XLSX_first_sheet_to_json : string -> option (list row))
  (selected : File) (others : list File) (data : State row) :
  extension (name selected) <> "csv" ->
  extension (name selected) <> "xls" ->
  extension (name selected) <> "xlsx" ->
  handleFileChange (selected :: others) data = Returned None data /\
  select_files row Papa_parse XLSX_first_sheet_to_json (selected :: others) data
  = Returned tt data.
Proof.
  intros Hcsv Hxls Hxlsx.
  assert (handleFileChange (selected :: others) data = Returned None data) as Hnone.
  { unfold handleFileChange, fileExtension, bind. simpl.
    rewrite pop_split_dot. unfold ret. fold (extension (name selected)).
    apply String.eqb_neq in Hcsv, Hxls, Hxlsx.
    now rewrite Hcsv, Hxls, Hxlsx. }
  split; [exact Hnone|].
  unfold select_files, bind. now rewrite Hnone.
Qed.

(** Selecting a PDF file while three rows are stored. *)
Lemma unsupported_extension_is_ignored_example :
  handleFileChange [mkFile "Report.PDF" "%PDF-1.7"] (Some [1; 2; 3])
  = Returned None (Some [1; 2; 3]) /\
  select_files nat (fun _ => [4]) (fun _ => Some [5])
    [mkFile "Report.PDF" "%PDF-1.7"] (Some [1; 2; 3])
  = Returned tt (Some [1; 2; 3]).
Proof.
  apply (unsupported_extension_is_ignored nat (fun _ => [4]) (fun _ => Some [5])
           (mkFile "Report.PDF" "%PDF-1.7") [] (Some [1; 2; 3]));
    vm_compute; discriminate.
Defined.

(** The supported extensions are recognised in any case, and a name
    without a dot counts as its own extension. *)
Example supported_extensions :
  handleFileChange [mkFile "Sales.CSV" ""] (@None (list nat))
  = Returned (Some (PapaParse (mkFile "Sales.CSV" ""))) None /\
  handleFileChange [mkFile "q3.sales.Xlsx" ""] (@None (list nat))
  = Returned (Some (ReadAsBinaryString (mkFile "q3.sales.Xlsx" ""))) None /\
  handleFileChange [mkFile "csv" ""] (@None (list nat))
  = Returned (Some (PapaParse (mkFile "csv" ""))) None /\
  handleFileChange [] (Some [1]) = Returned None (Some [1]).
Proof. repeat split; reflexivity. Qed.

(** ** The upload route *)




(** With a [send] that transmits every body, the three answers. *)
Example upload_literals :
  upload parse_literal send_body (mkRequest None) fresh_response
  = Returned tt {| statusCode := 400; sent := Some (Text "No file uploaded.") |} /\
  upload parse_literal send_body (mkRequest (Some (mkUploadedFile "{oops"))) fresh_response
  = Returned tt {| statusCode := 400; sent := Some (Text "Invalid JSON file.") |} /\
  upload parse_literal send_body (mkRequest (Some (mkUploadedFile "true"))) fresh_response
  = Returned tt {| statusCode := 200; sent := Some (Json JTrue) |}.
Proof. repeat split; reflexivity. Qed.

(** ** Revenue by product and revenue by row *)

(** C5, as stated, fails on [rounding_rows]: the revenues by product are
    [0.5, 0.1] and add up to 0.6 (0.59999999999999998), the revenues by row
    are [0.2, 0.1, 0.3] and add up to 0.6000000000000001; the two sums are
    different numbers. *)
Lemma revenue_not_conserved_on_rounding_rows :
  let out := createChartData rounding_rows in
  of_chart chart_values "productRevenueChart" out = Some [0.5; 0.1]%float /\
  of_chart chart_values "revenueOverTime" out = Some [0.2; 0.1; 0.3]%float /\
  sum [0.5; 0.1]%float = 0.59999999999999998%float /\
  sum [0.2; 0.1; 0.3]%float = 0.60000000000000009%float /\
  sum [0.5; 0.1]%float <> sum [0.2; 0.1; 0.3]%float /\
  PrimFloat.eqb (sum [0.5; 0.1]%float) (sum [0.2; 0.1; 0.3]%float) = false.
Proof.
  vm_compute. repeat split.
  intros Heq.
  apply (f_equal (fun v => PrimFloat.ltb v 0.60000000000000009%float)) in Heq.
  vm_compute in Heq. discriminate.
Qed.

Section WholeAmounts.

Context {num : Type} `{Number num}.

(** Whole amounts are numbers through [of_Z], and adding the numbers of two
    non-negative amounts whose sum is at most [bound] does not round. *)
Variable of_Z : Z -> num.
Variable bound : Z.
Hypothesis of_Z_zero : of_Z 0 = zero.
Hypothesis add_exact :
  forall a b, (0 <= a)%Z -> (0 <= b)%Z -> (a + b <= bound)%Z ->
              add (of_Z a) (of_Z b) = of_Z (a + b).

Lemma total_nonneg (amounts : list Z) :
  Forall (fun a => (0 <= a)%Z) amounts -> (0 <= total amounts)%Z.
Proof.
  induction 1 as [|a amounts Ha _ IH]; simpl; lia.
Qed.

Lemma fold_add_exact (amounts : list Z) (acc : Z) :
  Forall (fun a => (0 <= a)%Z) amounts ->
  (0 <= acc)%Z -> (acc + total amounts <= bound)%Z ->
  fold_left add (map of_Z amounts) (of_Z acc) = of_Z (acc + total amounts).
Proof.
  intros Hpos. revert acc.
  induction Hpos as [|a amounts Ha Hpos IH]; intros acc Hacc Hbound; simpl in *.
  - now rewrite Z.add_0_r.
  - pose proof (total_nonneg amounts Hpos) as Htotal.
    rewrite add_exact by lia. rewrite IH by lia. f_equal. lia.
Qed.

Lemma sum_exact (amounts : list Z) :
  Forall (fun a => (0 <= a)%Z) amounts -> (total amounts <= bound)%Z ->
  sum (map of_Z amounts) = of_Z (total amounts).
Proof.
  intros Hpos Hbound. unfold sum. rewrite <- of_Z_zero.
  now rewrite fold_add_exact.
Qed.

End WholeAmounts.

(** The amounts tagged with one key, out of a list of tagged amounts. *)
Lemma total_filter_nonneg (tagged : list (string * Z)) (keep : string * Z -> bool) :
  Forall (fun a => (0 <= a)%Z) (map snd tagged) ->
  Forall (fun a => (0 <= a)%Z) (map snd (filter keep tagged)) /\
  (total (map snd (filter keep tagged)) <= total (map snd tagged))%Z.
Proof.
  induction tagged as [|[k a] tagged IH]; simpl; intros Hpos.
  - split; [constructor|lia].
  - inversion Hpos as [|? ? Ha Hrest]; subst.
    destruct (IH Hrest) as [IHpos IHle].
    destruct (keep (k, a)); simpl; split; try constructor; auto; lia.
Qed.

Lemma total_split (tagged : list (string * Z)) (p q : string * Z -> bool) :
  (forall t, In t tagged -> p t && q t = false) ->
  total (map snd (filter (fun t => p t || q t) tagged))
  = (total (map snd (filter p tagged)) + total (map snd (filter q tagged)))%Z.
Proof.
  unfold total.
  induction tagged as [|t tagged IH]; simpl; intros Hdisjoint; [reflexivity|].
  pose proof (Hdisjoint t (or_introl eq_refl)) as Ht.
  assert (forall t', In t' tagged -> p t' && q t' = false) as Hrest
    by (intros t' Ht'; apply Hdisjoint; now right).
  specialize (IH Hrest).
  destruct (p t), (q t); simpl in *; try discriminate; lia.
Qed.

(** Summing, key by key, the amounts tagged with that key gives the sum of
    the amounts tagged with one of the keys. *)
Lemma total_by_keys (tagged : list (string * Z)) (ks : list string) :
  NoDup ks ->
  total (map (fun k =>
                total (map snd (filter (fun t => String.eqb (fst t) k) tagged)))
             ks)
  = total (map snd (filter (fun t => existsb (String.eqb (fst t)) ks) tagged)).
Proof.
  induction 1 as [|k ks Hk _ IH]; simpl.
  - induction tagged as [|t tagged IHt]; [reflexivity|exact IHt].
  - rewrite IH. symmetry. apply total_split.
    intros t _. destruct (String.eqb_spec (fst t) k) as [->|]; [|reflexivity].
    simpl. apply not_true_is_false. intros Hin.
    apply existsb_exists in Hin as (k' & Hin & Heq).
    apply String.eqb_eq in Heq. now subst k'.
Qed.

Lemma total_regrouped (tagged : list (string * Z)) :
  total (map (fun k =>
                total (map snd (filter (fun t => String.eqb (fst t) k) tagged)))
             (dedup (map fst tagged)))
  = total (map snd tagged).
Proof.
  rewrite total_by_keys by apply NoDup_dedup.
  rewrite filter_all; [reflexivity|].
  intros t Ht. apply existsb_exists. exists (fst t). split.
  - apply In_dedup. now apply in_map.
  - apply String.eqb_refl.
Qed.

Section Conservation.

Context {num : Type} `{Number num}.

Variable of_Z : Z -> num.

(** The rows of one product carry the amounts tagged with that product. *)
Lemma revenue_of_tagged (data : list (Row num)) (amounts : list Z) (product : string) :
  map Total_Revenue data = map of_Z amounts ->
  map Total_Revenue (rows_of_product product data)
  = map of_Z
      (map snd (filter (fun t => String.eqb (fst t) product)
                       (combine (map Product_Name data) amounts))).
Proof.
  revert amounts. induction data as [|item data IH]; intros [|a amounts] Heq;
    try discriminate; simpl in *; [reflexivity|].
  injection Heq as Ha Hrest.
  destruct (String.eqb (Product_Name item) product); simpl;
    now rewrite (IH amounts Hrest), ?Ha.
Qed.

Lemma combine_tagged (data : list (Row num)) (amounts : list Z) :
  map Total_Revenue data = map of_Z amounts ->
  map fst (combine (map Product_Name data) amounts) = map Product_Name data /\
  map snd (combine (map Product_Name data) amounts) = amounts.
Proof.
  revert amounts. induction data as [|item data IH]; intros [|a amounts] Heq;
    try discriminate; simpl in *; [now split|].
  injection Heq as _ Hrest. destruct (IH amounts Hrest) as [-> ->]. now split.
Qed.

(** When whole amounts are numbers through [of_Z], and adding the numbers of
    two non-negative amounts does not round as long as their sum is at most
    [bound], the revenues by product add up to the same number as the
    revenues by row: the number of the total amount. *)
Lemma revenue_conserved_without_rounding
  (bound : Z) (data : list (Row num)) (amounts : list Z) :
  of_Z 0 = zero ->
  (forall a b, (0 <= a)%Z -> (0 <= b)%Z -> (a + b <= bound)%Z ->
               add (of_Z a) (of_Z b) = of_Z (a + b)) ->
  map Total_Revenue data = map of_Z amounts ->
  Forall (fun a => (0 <= a)%Z) amounts ->
  (total amounts <= bound)%Z ->
  exists revenues values,
    of_chart chart_values "productRevenueChart" (createChartData data)
    = Some revenues /\
    of_chart chart_values "revenueOverTime" (createChartData data)
    = Some values /\
    sum revenues = of_Z (total amounts) /\
    sum values = of_Z (total amounts).
Proof.
  intros Hzero Hexact Hdata Hpos Hbound.
  exists (map (revenue_of data) (products data)), (totalRevenue data).
  split; [apply productRevenueChart_values|].
  split; [apply revenueOverTime_values|].
  destruct (combine_tagged data amounts Hdata) as [Hfst Hsnd].
  set (tagged := combine (map Product_Name data) amounts) in *.
  assert (Forall (fun a => (0 <= a)%Z) (map snd tagged)) as Htagged
    by now rewrite Hsnd.
  split.
  - assert (map (revenue_of data) (products data)
            = map of_Z
                (map (fun k =>
                        total (map snd (filter (fun t => String.eqb (fst t) k) tagged)))
                     (dedup (map fst tagged)))) as ->.
    { rewrite Hfst, map_map. unfold products. rewrite Set_spread_dedup.
      apply map_ext. intros product. unfold revenue_of.
      rewrite (revenue_of_tagged data amounts product Hdata). fold tagged.
      destruct (total_filter_nonneg tagged
                  (fun t => String.eqb (fst t) product) Htagged) as [Hp Hle].
      apply (sum_exact of_Z bound Hzero Hexact); [exact Hp|].
      rewrite Hsnd in Hle. lia. }
    rewrite (sum_exact of_Z bound Hzero Hexact).
    + now rewrite total_regrouped, Hsnd.
    + apply Forall_forall. intros a Ha.
      apply in_map_iff in Ha as (k & <- & _).
      apply total_nonneg.
      apply (total_filter_nonneg tagged (fun t => String.eqb (fst t) k) Htagged).
    + rewrite total_regrouped, Hsnd. exact Hbound.
  - change (totalRevenue data) with (map Total_Revenue data). rewrite Hdata.
    now apply (sum_exact of_Z bound Hzero Hexact).
Qed.

End Conservation.

(** ** Whole amounts as binary64 numbers *)

Section WholeNumbers.

Local Open Scope Z_scope.

Lemma digits2_pos_bounds (c : positive) :
  2 ^ (Zpos (digits2_pos c) - 1) <= Zpos c < 2 ^ Zpos (digits2_pos c).
Proof.
  induction c as [c IH|c IH|]; simpl digits2_pos.
  - rewrite Pos2Z.inj_succ, (Pos2Z.inj_xI c).
    replace (Z.succ (Zpos (digits2_pos c)) - 1) with (Z.succ (Zpos (digits2_pos c) - 1)) by lia.
    rewrite !Z.pow_succ_r by lia. lia.
  - rewrite Pos2Z.inj_succ, (Pos2Z.inj_xO c).
    replace (Z.succ (Zpos (digits2_pos c)) - 1) with (Z.succ (Zpos (digits2_pos c) - 1)) by lia.
    rewrite !Z.pow_succ_r by lia. lia.
  - change (1 <= 1 < 2). lia.
Qed.

Lemma digits2_pos_unique (c : positive) (d : Z) :
  2 ^ (d - 1) <= Zpos c < 2 ^ d -> Zpos (digits2_pos c) = d.
Proof.
  intros [Hlo Hhi]. pose proof (digits2_pos_bounds c) as [Dlo Dhi].
  assert (0 <= d) as Hd.
  { destruct (Z.le_gt_cases 0 d); [assumption|].
    rewrite Z.pow_neg_r in Hhi by lia. lia. }
  destruct (Z.lt_trichotomy (Zpos (digits2_pos c)) d) as [Hlt|[Heq|Hgt]];
    [|assumption|].
  - pose proof (Z.pow_le_mono_r 2 (Zpos (digits2_pos c)) (d - 1)). lia.
  - pose proof (Z.pow_le_mono_r 2 d (Zpos (digits2_pos c) - 1)). lia.
Qed.

Lemma digits2_pos_shifted (c : positive) (j : Z) :
  0 <= j ->
  Zpos (digits2_pos (Z.to_pos (Zpos c * 2 ^ j))) = Zpos (digits2_pos c) + j.
Proof.
  intros Hj. apply digits2_pos_unique.
  pose proof (digits2_pos_bounds c) as [Dlo Dhi].
  assert (0 < 2 ^ j) by (apply Z.pow_pos_nonneg; lia).
  rewrite Z2Pos.id by lia.
  replace (Zpos (digits2_pos c) + j - 1) with (Zpos (digits2_pos c) - 1 + j) by lia.
  rewrite !Z.pow_add_r by lia. nia.
Qed.

Lemma Zdigits2_shifted (c : positive) (j : Z) :
  0 <= j -> Zdigits2 (Zpos c * 2 ^ j) = Zpos (digits2_pos c) + j.
Proof.
  intros Hj. assert (0 < 2 ^ j) by (apply Z.pow_pos_nonneg; lia).
  rewrite <- (Z2Pos.id (Zpos c * 2 ^ j)) by lia.
  cbn [Zdigits2]. now apply digits2_pos_shifted.
Qed.

Lemma digits2_pos_small (c : positive) :
  Zpos c < 2 ^ 53 -> Zpos (digits2_pos c) <= 53.
Proof.
  intros Hc. pose proof (digits2_pos_bounds c) as [Dlo _].
  destruct (Z.le_gt_cases (Zpos (digits2_pos c)) 53); [assumption|].
  pose proof (Z.pow_le_mono_r 2 53 (Zpos (digits2_pos c) - 1)). lia.
Qed.

Lemma iter_pos_iter {A : Type} (f : A -> A) (p : positive) (a : A) :
  iter_pos f p a = Pos.iter f a p.
Proof.
  revert a. induction p as [p IH|p IH|]; intros a; simpl.
  - now rewrite !IH, <- !Pos.iter_swap.
  - now rewrite !IH.
  - reflexivity.
Qed.

Lemma shr_1_double (m : Z) :
  shr_1 {| shr_m := 2 * m; shr_r := false; shr_s := false |}
  = {| shr_m := m; shr_r := false; shr_s := false |}.
Proof. now destruct m. Qed.

Lemma iter_shr_1_exact (p : positive) (m : Z) :
  iter_pos shr_1 p {| shr_m := m * 2 ^ Zpos p; shr_r := false; shr_s := false |}
  = {| shr_m := m; shr_r := false; shr_s := false |}.
Proof.
  rewrite iter_pos_iter. revert m.
  induction p as [|p IH] using Pos.peano_ind; intros m.
  - cbn [Pos.iter]. replace (m * 2 ^ 1) with (2 * m) by lia. apply shr_1_double.
  - rewrite Pos.iter_succ_r, Pos2Z.inj_succ, Z.pow_succ_r by lia.
    replace (m * (2 * 2 ^ Zpos p)) with (2 * (m * 2 ^ Zpos p)) by lia.
    rewrite shr_1_double. apply IH.
Qed.

Lemma iter_xO_shift (p : positive) (m : positive) :
  Zpos (Pos.iter xO m p) = Zpos m * 2 ^ Zpos p.
Proof.
  induction p as [|p IH] using Pos.peano_ind.
  - simpl. lia.
  - rewrite Pos.iter_succ, Pos2Z.inj_xO, IH, Pos2Z.inj_succ, Z.pow_succ_r by lia. lia.
Qed.

Lemma shr_fexp_exact (c : positive) (j : Z) :
  Zpos (digits2_pos c) <= 53 -> 53 - Zpos (digits2_pos c) <= j ->
  shr_fexp prec emax (Zpos c * 2 ^ j) (- j) loc_Exact
  = ({| shr_m := Zpos c * 2 ^ (53 - Zpos (digits2_pos c));
        shr_r := false; shr_s := false |},
     Zpos (digits2_pos c) - 53).
Proof.
  intros HD Hj. pose proof (Pos2Z.is_pos (digits2_pos c)) as Hpos.
  assert (0 <= j) as Hj0 by lia.
  assert (0 < 2 ^ j) by (apply Z.pow_pos_nonneg; lia).
  unfold shr_fexp. rewrite Zdigits2_shifted by assumption.
  unfold fexp, emin, prec, emax.
  replace (Z.max (Zpos (digits2_pos c) + j + - j - 53) (3 - 1024 - 53))
    with (Zpos (digits2_pos c) - 53) by lia.
  cbn [shr_record_of_loc]. unfold shr.
  destruct (Zpos (digits2_pos c) - 53 - - j) as [|p|p] eqn:Hs; try lia.
  - f_equal; [|lia]. f_equal. f_equal. f_equal. lia.
  - f_equal; [|lia].
    replace j with (53 - Zpos (digits2_pos c) + Zpos p) by lia.
    rewrite Z.pow_add_r, Z.mul_assoc by lia.
    apply iter_shr_1_exact.
Qed.

Lemma binary_round_aux_exact (c : positive) (j : Z) :
  Zpos (digits2_pos c) <= 53 -> 53 - Zpos (digits2_pos c) <= j ->
  binary_round_aux prec emax false (Zpos c * 2 ^ j) (- j) loc_Exact = normal_form c.
Proof.
  intros HD Hj. pose proof (Pos2Z.is_pos (digits2_pos c)) as Hpos.
  unfold binary_round_aux. rewrite shr_fexp_exact by assumption.
  cbn [shr_m loc_of_shr_record round_nearest_even].
  replace (Zpos (digits2_pos c) - 53) with (- (53 - Zpos (digits2_pos c))) at 1 by lia.
  rewrite shr_fexp_exact by lia. cbn [shr_m].
  assert (0 < 2 ^ (53 - Zpos (digits2_pos c))) by (apply Z.pow_pos_nonneg; lia).
  destruct (Zpos c * 2 ^ (53 - Zpos (digits2_pos c))) as [|m|m] eqn:Hm; try lia.
  unfold normal_form, prec, emax.
  destruct (Z.leb_spec (Zpos (digits2_pos c) - 53) (1024 - 53)); [|lia].
  now rewrite Hm.
Qed.

Lemma binary_round_exact (c : positive) (k : Z) :
  Zpos (digits2_pos c) <= 53 -> 0 <= k ->
  binary_round prec emax false (Z.to_pos (Zpos c * 2 ^ k)) (- k) = normal_form c.
Proof.
  intros HD Hk. pose proof (Pos2Z.is_pos (digits2_pos c)) as Hpos.
  assert (0 < 2 ^ k) by (apply Z.pow_pos_nonneg; lia).
  unfold binary_round. rewrite digits2_pos_shifted by assumption.
  unfold fexp at 1, emin, prec at 1 2, emax at 1.
  replace (Z.max (Zpos (digits2_pos c) + k + - k - 53) (3 - 1024 - 53))
    with (Zpos (digits2_pos c) - 53) by lia.
  unfold shl_align.
  destruct (Zpos (digits2_pos c) - 53 - - k) as [|p|p] eqn:Hs.
  - rewrite Z2Pos.id by lia. apply binary_round_aux_exact; lia.
  - rewrite Z2Pos.id by lia. apply binary_round_aux_exact; lia.
  - rewrite iter_xO_shift, Z2Pos.id by lia.
    rewrite <- Z.mul_assoc, <- Z.pow_add_r by lia.
    replace (k + Zpos p) with (53 - Zpos (digits2_pos c)) by lia.
    replace (Zpos (digits2_pos c) - 53) with (- (53 - Zpos (digits2_pos c))) by lia.
    apply binary_round_aux_exact; lia.
Qed.

Lemma Prim2SF_float_of_Z (c : positive) :
  Zpos c < 2 ^ 53 -> Prim2SF (float_of_Z (Zpos c)) = normal_form c.
Proof.
  intros Hc. unfold float_of_Z.
  rewrite of_uint63_spec, Uint63.of_Z_spec.
  rewrite Z.mod_small.
  2:{ split; [lia|]. change Uint63.wB with (2 ^ 63). 
      assert (2 ^ 53 < 2 ^ 63) by (apply Z.pow_lt_mono_r; lia). lia. }
  cbn [binary_normalize].
  replace c with (Z.to_pos (Zpos c * 2 ^ 0)) at 1 by (rewrite Z.pow_0_r, Z.mul_1_r; reflexivity).
  change 0 with (- 0) at 2.
  apply binary_round_exact; [now apply digits2_pos_small|lia].
Qed.

Lemma shl_align_fst (m : positive) (e e' : Z) :
  e' <= e -> Zpos (fst (shl_align m e e')) = Zpos m * 2 ^ (e - e').
Proof.
  intros He. unfold shl_align.
  destruct (e' - e) as [|p|p] eqn:Hd; try lia.
  - replace (e - e') with 0 by lia. simpl. lia.
  - cbn [fst]. rewrite iter_xO_shift. f_equal. f_equal. lia.
Qed.

Lemma SFadd_normal_forms (a b : positive) :
  Zpos a + Zpos b < 2 ^ 53 ->
  SF64add (normal_form a) (normal_form b) = normal_form (a + b).
Proof.
  intros Hsum.
  assert (Zpos (digits2_pos a) <= 53) as Ha by (apply digits2_pos_small; lia).
  assert (Zpos (digits2_pos b) <= 53) as Hb by (apply digits2_pos_small; lia).
  assert (Zpos (digits2_pos (a + b)) <= 53) as Hab
    by (apply digits2_pos_small; rewrite Pos2Z.inj_add; lia).
  pose proof (Pos2Z.is_pos (digits2_pos a)).
  pose proof (Pos2Z.is_pos (digits2_pos b)).
  unfold SF64add, normal_form at 1 2. cbn [SFadd].
  set (ea := Zpos (digits2_pos a) - 53).
  set (eb := Zpos (digits2_pos b) - 53).
  set (ez := Z.min ea eb).
  cbn [cond_Zopp].
  rewrite !shl_align_fst by (subst ez; lia).
  assert (0 < 2 ^ (53 - Zpos (digits2_pos a))) by (apply Z.pow_pos_nonneg; lia).
  assert (0 < 2 ^ (53 - Zpos (digits2_pos b))) by (apply Z.pow_pos_nonneg; lia).
  rewrite !Z2Pos.id by lia.
  rewrite <- !Z.mul_assoc, <- !Z.pow_add_r by (subst ea eb ez; lia).
  replace (53 - Zpos (digits2_pos a) + (ea - ez)) with (- ez) by (subst ea; lia).
  replace (53 - Zpos (digits2_pos b) + (eb - ez)) with (- ez) by (subst eb; lia).
  rewrite <- Z.mul_add_distr_r, <- Pos2Z.inj_add.
  assert (0 < 2 ^ (- ez)) by (apply Z.pow_pos_nonneg; subst ea eb ez; lia).
  rewrite <- (Z2Pos.id (Zpos (a + b) * 2 ^ (- ez))) by lia.
  cbn [binary_normalize].
  replace ez with (- (- ez)) at 2 by lia.
  apply binary_round_exact; [assumption|subst ea eb ez; lia].
Qed.

(** Adding the numbers of two non-negative whole amounts does not round when
    their sum is below 2^53. *)
Lemma float_addition_exact (a b : Z) :
  0 <= a -> 0 <= b -> a + b < 2 ^ 53 ->
  PrimFloat.add (float_of_Z a) (float_of_Z b) = float_of_Z (a + b).
Proof.
  intros Ha Hb Hab. apply Prim2SF_inj. rewrite FloatAxioms.add_spec.
  destruct a as [|a|a], b as [|b|b]; try lia.
  - reflexivity.
  - rewrite Z.add_0_l, Prim2SF_float_of_Z by lia. reflexivity.
  - rewrite Z.add_0_r, Prim2SF_float_of_Z by lia. reflexivity.
  - rewrite !Prim2SF_float_of_Z by lia.
    rewrite <- Pos2Z.inj_add, Prim2SF_float_of_Z by (rewrite Pos2Z.inj_add; lia).
    apply SFadd_normal_forms. lia.
Qed.

End WholeNumbers.

(** C5, amended: when the revenues are non-negative whole numbers whose
    total is below 2^53, the revenues by product add up to the same number
    as the revenues by row, the number of the total amount. *)
Theorem revenue_conserved_for_whole_amounts
  (data : list (Row float)) (amounts : list Z) :
  map Total_Revenue data = map float_of_Z amounts ->
  Forall (fun a => (0 <= a)%Z) amounts ->
  (total amounts < 2 ^ 53)%Z ->
  exists revenues values,
    of_chart chart_values "productRevenueChart" (createChartData data)
    = Some revenues /\
    of_chart chart_values "revenueOverTime" (createChartData data)
    = Some values /\
    sum revenues = float_of_Z (total amounts) /\
    sum values = float_of_Z (total amounts) /\
    sum revenues = sum values.
Proof.
  intros Hdata Hpos Hbound.
  destruct (revenue_conserved_without_rounding float_of_Z (2 ^ 53 - 1) data amounts)
    as (revenues & values & Hrevenues & Hvalues & Hr & Hv);
    try assumption; try lia.
  - reflexivity.
  - intros a b Ha Hb Hab. apply float_addition_exact; lia.
  - exists revenues, values. repeat split; try assumption. congruence.
Qed.

(** The example rows, whose revenues are the whole amounts 100, 50, 200. *)
Lemma revenue_conserved_on_example_rows :
  exists revenues values,
    of_chart chart_values "productRevenueChart" (createChartData example_rows)
    = Some revenues /\
    of_chart chart_values "revenueOverTime" (createChartData example_rows)
    = Some values /\
    sum revenues = float_of_Z (total [100; 50; 200]%Z) /\
    sum values = float_of_Z (total [100; 50; 200]%Z) /\
    sum revenues = sum values.
Proof.
  apply (revenue_conserved_for_whole_amounts example_rows [100; 50; 200]%Z).
  - reflexivity.
  - repeat constructor; lia.
  - reflexivity.
Defined.

(** * Further properties *)

(** ** Which parser a selected file is handed to *)

(** X1: [handleFileChange] never throws and never changes the stored data
    itself, whatever is selected (no file, several files, any name): it
    only decides which work to start. *)
Theorem handleFileChange_returns
  (row : Type) (files : list File) (data : State row) :
  exists task, handleFileChange files data = Returned task data.
Proof.
  destruct files as [|selected others]; [now exists None|].
  unfold handleFileChange, fileExtension, bind. simpl.
  rewrite pop_split_dot. unfold ret.
  destruct (String.eqb _ "csv"); [now eexists|].
  destruct (String.eqb _ "xls" || String.eqb _ "xlsx"); now eexists.
Qed.

(** X2: a first file whose extension is [csv] in any letter case is handed
    to the CSV parser, and what the parser yields replaces the stored data,
    whatever was stored; further selected files are ignored. *)
Theorem csv_file_replaces_data
  (row : Type) (Papa_parse : File -> list row)
  (XLSX_first_sheet_to_json : string -> option (list row))
  (selected : File) (others : list File) (data : State row) :
  extension (name selected) = "csv" ->
  handleFileChange (selected :: others) data
  = Returned (Some (PapaParse selected)) data /\
  select_files row Papa_parse XLSX_first_sheet_to_json (selected :: others) data
  = Returned tt (Some (Papa_parse selected)).
Proof.
  intros Hcsv.
  assert (handleFileChange (selected :: others) data
          = Returned (Some (PapaParse selected)) data) as Htask.
  { unfold handleFileChange, fileExtension, bind. simpl.
    rewrite pop_split_dot. unfold ret. fold (extension (name selected)).
    now rewrite Hcsv. }
  split; [exact Htask|].
  unfold select_files, bind. now rewrite Htask.
Qed.

(** A file named in capitals. *)
Lemma csv_file_replaces_data_example :
  handleFileChange [mkFile "Sales.CSV" "a,b"; mkFile "more.csv" ""] (Some [1; 2; 3])
  = Returned (Some (PapaParse (mkFile "Sales.CSV" "a,b"))) (Some [1; 2; 3]) /\
  select_files nat (fun _ => [4]) (fun _ => Some [5])
    [mkFile "Sales.CSV" "a,b"; mkFile "more.csv" ""] (Some [1; 2; 3])
  = Returned tt (Some [4]).
Proof.
  apply (csv_file_replaces_data nat (fun _ => [4]) (fun _ => Some [5])
           (mkFile "Sales.CSV" "a,b") [mkFile "more.csv" ""] (Some [1; 2; 3])).
  reflexivity.
Defined.

(** X3: a first file whose extension is [xls] or [xlsx] is read as a
    spreadsheet; if the spreadsheet library yields rows they replace the
    stored data, and if it throws the stored data stays as it was. *)
Theorem spreadsheet_file_replaces_data
  (row : Type) (Papa_parse : File -> list row)
  (XLSX_first_sheet_to_json : string -> option (list row))
  (selected : File) (others : list File) (data : State row) :
  extension (name selected) = "xls" \/ extension (name selected) = "xlsx" ->
  handleFileChange (selected :: others) data
  = Returned (Some (ReadAsBinaryString selected)) data /\
  select_files row Papa_parse XLSX_first_sheet_to_json (selected :: others) data
  = match XLSX_first_sheet_to_json (contents selected) with
    | Some jsonData => Returned tt (Some jsonData)
    | None => Thrown "Error" data
    end.
Proof.
  intros Hext.
  assert (handleFileChange (selected :: others) data
          = Returned (Some (ReadAsBinaryString selected)) data) as Htask.
  { unfold handleFileChange, fileExtension, bind. simpl.
    rewrite pop_split_dot. unfold ret. fold (extension (name selected)).
    destruct Hext as [-> | ->]; reflexivity. }
  split; [exact Htask|].
  unfold select_files, bind. rewrite Htask. simpl.
  now destruct (XLSX_first_sheet_to_json (contents selected)).
Qed.

(** A workbook the library reads. *)
Lemma spreadsheet_file_replaces_data_example :
  handleFileChange [mkFile "q3.sales.Xlsx" "PK"] (Some [1; 2; 3])
  = Returned (Some (ReadAsBinaryString (mkFile "q3.sales.Xlsx" "PK"))) (Some [1; 2; 3]) /\
  select_files nat (fun _ => [4])
    (fun bytes => if String.eqb bytes "PK" then Some [5] else None)
    [mkFile "q3.sales.Xlsx" "PK"] (Some [1; 2; 3])
  = Returned tt (Some [5]).
Proof.
  apply (spreadsheet_file_replaces_data nat (fun _ => [4])
           (fun bytes => if String.eqb bytes "PK" then Some [5] else None)
           (mkFile "q3.sales.Xlsx" "PK") [] (Some [1; 2; 3])).
  right. reflexivity.
Defined.

Lemma has_dot_app (base ext : string) : has_dot (base ++ String "." ext) = true.
Proof.
  induction base as [|c base IH]; simpl; [reflexivity|].
  rewrite IH. apply orb_true_r.
Qed.

Lemma after_last_dot_app (base ext : string) :
  has_dot ext = false -> after_last_dot (base ++ String "." ext) = ext.
Proof.
  intros Hext. induction base as [|c base IH]; simpl.
  - now rewrite Hext.
  - now rewrite has_dot_app.
Qed.

Lemma after_last_dot_without_dot (s : string) :
  has_dot s = false -> after_last_dot s = s.
Proof.
  destruct s as [|c rest]; simpl; [reflexivity|].
  intros Hdot. apply orb_false_iff in Hdot as [Hc Hrest].
  now rewrite Hrest, Hc.
Qed.

(** X4: the extension the component computes is the lower-cased text after
    the last dot of the name, however many dots the name has; a name without
    any dot is, as a whole, its own extension. *)
Theorem fileExtension_after_last_dot
  (row : Type) (base ext bytes : string) (data : State row) :
  has_dot ext = false ->
  fileExtension (mkFile (base ++ "." ++ ext) bytes) data
  = Returned (toLowerCase ext) data /\
  fileExtension (mkFile ext bytes) data = Returned (toLowerCase ext) data.
Proof.
  intros Hext. unfold fileExtension. cbn [name]. rewrite !pop_split_dot.
  change (base ++ "." ++ ext)%string with (base ++ String "." ext)%string.
  now rewrite after_last_dot_app, after_last_dot_without_dot.
Qed.

(** A name with two dots and a name with none. *)
Lemma fileExtension_after_last_dot_example :
  fileExtension (mkFile ("q3.sales" ++ "." ++ "Xlsx") "") (@None (list nat))
  = Returned (toLowerCase "Xlsx") None /\
  fileExtension (mkFile "Xlsx" "") (@None (list nat))
  = Returned (toLowerCase "Xlsx") None.
Proof.
  apply (fileExtension_after_last_dot nat "q3.sales" "Xlsx" "" None). reflexivity.
Defined.

Lemma lower_char_dot (c : ascii) :
  Ascii.eqb (lower_char c) "." = Ascii.eqb c ".".
Proof.
  destruct c as [[] [] [] [] [] [] [] []]; reflexivity.
Qed.

Lemma has_dot_toLowerCase (s : string) : has_dot (toLowerCase s) = has_dot s.
Proof.
  induction s as [|c rest IH]; simpl; [reflexivity|].
  now rewrite lower_char_dot, IH.
Qed.

Lemma after_last_dot_toLowerCase (s : string) :
  after_last_dot (toLowerCase s) = toLowerCase (after_last_dot s).
Proof.
  induction s as [|c rest IH]; simpl; [reflexivity|].
  rewrite has_dot_toLowerCase, lower_char_dot, IH.
  destruct (has_dot rest); [reflexivity|].
  now destruct (Ascii.eqb c ".").
Qed.

(** X5: for file names of ASCII characters, the choice of the parser does
    not depend on the letter case of the name: two such names that agree up
    to case have the same extension. *)
Theorem fileExtension_ignores_case
  (row : Type) (file1 file2 : File) (data : State row) :
  is_ascii (name file1) = true -> is_ascii (name file2) = true ->
  toLowerCase (name file1) = toLowerCase (name file2) ->
  fileExtension file1 data = fileExtension file2 data.
Proof.
  intros _ _ Hnames. unfold fileExtension. rewrite !pop_split_dot.
  now rewrite <- !after_last_dot_toLowerCase, Hnames.
Qed.

(** Two spellings of one name. *)
Lemma fileExtension_ignores_case_example :
  fileExtension (mkFile "SALES.Csv" "x") (@None (list nat))
  = fileExtension (mkFile "sales.CSV" "y") None.
Proof.
  apply (fileExtension_ignores_case nat (mkFile "SALES.Csv" "x") (mkFile "sales.CSV" "y"));
    reflexivity.
Defined.

(** ** The product axis *)

Lemma length_filter_le {A : Type} (f : A -> bool) (l : list A) :
  List.length (filter f l) <= List.length l.
Proof.
  induction l as [|a l IH]; simpl; [lia|].
  destruct (f a); simpl; lia.
Qed.

Lemma length_dedup_le (l : list string) : List.length (dedup l) <= List.length l.
Proof.
  induction l as [|k l IH]; simpl; [lia|].
  pose proof (length_filter_le (fun k' => negb (String.eqb k' k)) (dedup l)). lia.
Qed.

(** X6: the product labels hold every product of the rows exactly once:
    no label is repeated, a name is a label exactly when some row has it,
    there are at most as many labels as rows, and none only for no rows. *)
Theorem products_distinct
  {num : Type} `{Number num} (data : list (Row num)) :
  NoDup (products data) /\
  (forall product,
     In product (products data) <->
     exists item, In item data /\ Product_Name item = product) /\
  List.length (products data) <= List.length data /\
  (products data = [] <-> data = []).
Proof.
  unfold products. rewrite Set_spread_dedup. repeat split.
  - apply NoDup_dedup.
  - intros Hin. apply In_dedup, in_map_iff in Hin as (item & Hname & Hitem).
    now exists item.
  - intros (item & Hitem & Hname). apply In_dedup, in_map_iff. now exists item.
  - rewrite <- (length_map (fun item : Row num => Product_Name item) data).
    apply length_dedup_le.
  - destruct data; [reflexivity|discriminate].
  - now intros ->.
Qed.

(** X7: more rows never reorder or remove labels: the product labels of
    two row sequences put one after the other are the labels of the first,
    followed by those labels of the second that the first does not have. *)
Theorem products_of_more_rows
  {num : Type} `{Number num} (data more : list (Row num)) :
  products (data ++ more)
  = products data
    ++ filter (fun product => negb (existsb (String.eqb product) (products data)))
              (products more).
Proof.
  unfold products at 1, Set_spread. rewrite map_app, fold_left_app.
  fold (Set_spread (map (fun item : Row num => Product_Name item) data)).
  fold (products data). rewrite fold_Set_add. f_equal. f_equal.
  unfold products. now rewrite Set_spread_dedup.
Qed.

(** X8: at every index of the product axis, the average chart holds the
    value of the revenue chart divided by the value of the quantity chart,
    which is also the [y] of the scatter point divided by its [x]. *)
Theorem average_is_revenue_by_quantity
  {num : Type} `{Number num} (data : list (Row num)) (i : nat) :
  i < List.length (products data) ->
  let out := createChartData data in
  exists averages revenues quantities points revenue quantity point,
    of_chart chart_values "averageRevenueChart" out = Some averages /\
    of_chart chart_values "productRevenueChart" out = Some revenues /\
    of_chart chart_values "quantitySoldChart" out = Some quantities /\
    of_chart chart_points "scatterPlotData" out = Some points /\
    nth_error revenues i = Some revenue /\
    nth_error quantities i = Some quantity /\
    nth_error points i = Some point /\
    nth_error averages i = Some (div revenue quantity) /\
    div revenue quantity = div (y point) (x point).
Proof.
  intros Hi out. subst out.
  destruct (nth_error (products data) i) as [product|] eqn:Hproduct;
    [|apply nth_error_None in Hproduct; lia].
  exists (map (fun product => div (revenue_of data product) (quantity_of data product))
              (products data)),
    (map (revenue_of data) (products data)),
    (map (quantity_of data) (products data)),
    (map (fun product =>
            {| x := quantity_of data product; y := revenue_of data product |})
         (products data)),
    (revenue_of data product), (quantity_of data product),
    {| x := quantity_of data product; y := revenue_of data product |}.
  rewrite averageRevenueChart_values, productRevenueChart_values,
    quantitySoldChart_values, scatterPlotData_points.
  repeat split; rewrite nth_error_map, Hproduct; reflexivity.
Qed.

(** The first product of the example rows. *)
Lemma average_is_revenue_by_quantity_example :
  exists averages revenues quantities points revenue quantity point,
    of_chart chart_values "averageRevenueChart" (createChartData example_rows)
    = Some averages /\
    of_chart chart_values "productRevenueChart" (createChartData example_rows)
    = Some revenues /\
    of_chart chart_values "quantitySoldChart" (createChartData example_rows)
    = Some quantities /\
    of_chart chart_points "scatterPlotData" (createChartData example_rows)
    = Some points /\
    nth_error revenues 0 = Some revenue /\
    nth_error quantities 0 = Some quantity /\
    nth_error points 0 = Some point /\
    nth_error averages 0 = Some (div revenue quantity) /\
    div revenue quantity = div (y point) (x point).
Proof.
  apply (average_is_revenue_by_quantity example_rows 0). vm_compute. lia.
Defined.

(** ** The month axis and what is counted in a month *)

Lemma before_first_slash_no_slash (date : string) :
  has_slash (before_first_slash date) = false.
Proof.
  induction date as [|c rest IH]; simpl; [reflexivity|].
  destruct (Ascii.eqb c "/") eqn:Hc; simpl; [reflexivity|].
  now rewrite Hc.
Qed.

Lemma length_append (a b : string) :
  String.length (a ++ b) = String.length a + String.length b.
Proof.
  induction a as [|c a IH]; simpl; [reflexivity|]. now rewrite IH.
Qed.

Lemma append_cancel_r (k1 k2 s : string) :
  (k1 ++ s)%string = (k2 ++ s)%string -> k1 = k2.
Proof.
  revert k2. induction k1 as [|a k1 IH]; intros [|b k2] Heq; simpl in Heq.
  - reflexivity.
  - apply (f_equal String.length) in Heq. simpl in Heq.
    rewrite length_append in Heq. lia.
  - apply (f_equal String.length) in Heq. simpl in Heq.
    rewrite length_append in Heq. lia.
  - injection Heq as -> Heq. now rewrite (IH k2 Heq).
Qed.

Lemma eqb_with_year (k1 k2 : string) :
  String.eqb (k1 ++ "/2023") (k2 ++ "/2023") = String.eqb k1 k2.
Proof.
  destruct (String.eqb_spec k1 k2) as [->|Hneq].
  - apply String.eqb_refl.
  - apply String.eqb_neq. intros Heq. apply Hneq.
    exact (append_cancel_r _ _ _ Heq).
Qed.

Lemma prefix_cons (a c : ascii) (s1 s2 : string) :
  String.prefix (String a s1) (String c s2) = Ascii.eqb a c && String.prefix s1 s2.
Proof.
  cbn [String.prefix]. destruct (ascii_dec a c) as [->|Hac].
  - now rewrite Ascii.eqb_refl.
  - apply Ascii.eqb_neq in Hac. now rewrite Hac.
Qed.

Lemma eqb_cons (a c : ascii) (s1 s2 : string) :
  String.eqb (String a s1) (String c s2) = Ascii.eqb a c && String.eqb s1 s2.
Proof. reflexivity. Qed.

(** A date starts with a month key exactly when the key is the date's own
    and the year of the keys follows the date's first ['/']. *)
Lemma prefix_month_key (k date : string) :
  has_slash k = false ->
  String.prefix (k ++ "/2023") date
  = String.eqb (before_first_slash date) k && year_follows_month date.
Proof.
  intros Hk. revert date. unfold year_follows_month.
  induction k as [|a k IH]; intros [|c rest]; try reflexivity.
  - change ("" ++ "/2023")%string with (String "/" "2023").
    rewrite prefix_cons, Ascii.eqb_sym.
    cbn [before_first_slash after_first_slash].
    now destruct (Ascii.eqb c "/").
  - cbn [has_slash] in Hk. apply orb_false_iff in Hk as [Ha Hk].
    change (String a k ++ "/2023")%string with (String a (k ++ "/2023")).
    rewrite prefix_cons, (IH Hk rest).
    cbn [before_first_slash after_first_slash].
    destruct (Ascii.eqb_spec c "/") as [->|Hc].
    + rewrite Ha. reflexivity.
    + rewrite eqb_cons, (Ascii.eqb_sym c a). apply andb_assoc.
Qed.

Lemma months_dedup {num : Type} `{Number num} (data : list (Row num)) :
  months data = dedup (map (fun item => month_key (Date item)) data).
Proof.
  unfold months, dates. rewrite Set_spread_dedup, map_map. f_equal.
  apply map_ext. intros item. unfold month_key.
  now rewrite first_piece_of_split.
Qed.

Lemma startsWith_month {num : Type} `{Number num}
  (data : list (Row num)) (key : string) (item : Row num) :
  In key (months data) ->
  startsWith (Date item) key
  = String.eqb (month_key (Date item)) key && year_follows_month (Date item).
Proof.
  rewrite months_dedup, In_dedup, in_map_iff. intros (other & <- & _).
  unfold startsWith, month_key.
  rewrite prefix_month_key by apply before_first_slash_no_slash.
  now rewrite eqb_with_year.
Qed.

(** X9: the month labels are the month keys of the rows, each once; the
    day and the year of a date play no role in them: row sequences whose
    dates agree before their first ['/'] have the same month labels. *)
Theorem months_only_read_the_month
  {num : Type} `{Number num} (data : list (Row num)) :
  NoDup (months data) /\
  (forall key,
     In key (months data) <->
     exists item, In item data /\
                  key = (before_first_slash (Date item) ++ "/2023")%string) /\
  (forall data' : list (Row num),
     map (fun item => before_first_slash (Date item)) data
     = map (fun item => before_first_slash (Date item)) data' ->
     months data = months data').
Proof.
  rewrite months_dedup. repeat split.
  - apply NoDup_dedup.
  - intros Hin. apply In_dedup, in_map_iff in Hin as (item & Hkey & Hitem).
    now exists item.
  - intros (item & Hitem & ->). apply In_dedup, in_map_iff. now exists item.
  - intros data' Hsame. rewrite months_dedup. f_equal.
    unfold month_key.
    rewrite <- (map_map (fun item : Row num => before_first_slash (Date item))
                  (fun k => (k ++ "/2023")%string) data).
    rewrite <- (map_map (fun item : Row num => before_first_slash (Date item))
                  (fun k => (k ++ "/2023")%string) data').
    now rewrite Hsame.
Qed.

(** X10: a row is counted in the revenue of a month exactly when the
    month's key is the row's own key and, in the row's date, the year 2023
    directly follows the first ['/']: the monthly revenue at an index is the
    sum of [Total Revenue] over those rows. *)
Theorem monthlyRevenue_counts_year_first_dates
  {num : Type} `{Number num} (data : list (Row num)) :
  described_by
    (fun key =>
       sum (map Total_Revenue
              (filter (fun item =>
                         String.eqb (month_key (Date item)) key
                         && year_follows_month (Date item))
                      data)))
    (months data) (monthlyRevenue data).
Proof.
  unfold described_by, monthlyRevenue. split; [apply length_map|].
  intros i key Hkey. rewrite nth_error_map, Hkey. simpl. f_equal.
  rewrite reduce_revenue. do 2 f_equal.
  apply filter_ext. intros item.
  apply (startsWith_month data). eapply nth_error_In, Hkey.
Qed.

Lemma nth_map_const {A B : Type} (l : list A) (c d : B) (n : nat) :
  n < List.length l -> nth n (map (fun _ => c) l) d = c.
Proof.
  revert n. induction l as [|a l IH]; intros [|n] Hn; simpl in *;
    try lia; [reflexivity|].
  apply IH. lia.
Qed.

(** X11: when in no date the year 2023 directly follows the first ['/']
    (as in every date written month/day/year) no row is counted in any
    month: every monthly revenue is 0, and the growth chart shows 0 for the
    first month and NaN for every later one. *)
Theorem month_day_year_dates_count_nowhere (data : list (Row float)) :
  Forall (fun item => year_follows_month (Date item) = false) data ->
  monthlyRevenue data = map (fun _ => 0%float) (months data) /\
  forall i, i < List.length (months data) ->
    nth_error (monthlyGrowth data) i = Some (if Nat.eqb i 0 then 0%float else nan).
Proof.
  intros Hdates.
  assert (monthlyRevenue data = map (fun _ => 0%float) (months data)) as Hrev.
  { unfold monthlyRevenue. apply map_ext_in. intros key Hkey.
    rewrite (filter_ext_in _ (fun _ => false)).
    - clear. induction data as [|item data IH]; [reflexivity|exact IH].
    - intros item Hitem. rewrite (startsWith_month data key item Hkey).
      rewrite Forall_forall in Hdates. rewrite (Hdates item Hitem).
      apply andb_false_r. }
  split; [exact Hrev|]. intros i Hi.
  unfold monthlyGrowth, map_indexed. rewrite nth_error_map_from, Hrev.
  rewrite nth_error_map.
  destruct (nth_error (months data) i) as [key|] eqn:Hkey;
    [|apply nth_error_None in Hkey; lia].
  cbn [option_map Nat.add].
  destruct (Nat.eqb_spec i 0) as [->|Hpos]; [reflexivity|].
  rewrite (nth_map_const (months data) 0%float NaN (i - 1)) by lia.
  reflexivity.
Qed.

(** The example rows are dated month/day/year. *)
Lemma month_day_year_dates_count_nowhere_example :
  monthlyRevenue example_rows = map (fun _ => 0%float) (months example_rows) /\
  forall i, i < List.length (months example_rows) ->
    nth_error (monthlyGrowth example_rows) i
    = Some (if Nat.eqb i 0 then 0%float else nan).
Proof.
  apply (month_day_year_dates_count_nowhere example_rows).
  repeat constructor.
Defined.

(** X12: when in every date the year 2023 directly follows the first ['/']
    (dates written month/2023...), every row is counted in its own month
    and in no other: the monthly revenue at an index is the sum of [Total
    Revenue] over the rows whose month key is the label at that index. *)
Theorem month_year_dates_count_in_their_month
  {num : Type} `{Number num} (data : list (Row num)) :
  Forall (fun item => year_follows_month (Date item) = true) data ->
  monthlyRevenue data = map (revenue_in_month data) (months data).
Proof.
  intros Hdates. unfold monthlyRevenue, revenue_in_month.
  apply map_ext_in. intros key Hkey. rewrite reduce_revenue. do 2 f_equal.
  apply filter_ext_in. intros item Hitem.
  rewrite (startsWith_month data key item Hkey).
  rewrite Forall_forall in Hdates. rewrite (Hdates item Hitem).
  apply andb_true_r.
Qed.

(** Rows dated month/year. *)
Lemma month_year_dates_count_in_their_month_example :
  monthlyRevenue month_year_rows
  = map (revenue_in_month month_year_rows) (months month_year_rows).
Proof.
  apply (month_year_dates_count_in_their_month month_year_rows).
  repeat constructor.
Defined.

(** ** Quantities by product and by row *)

Lemma products_exchange_amounts {num : Type} `{Number num} (data : list (Row num)) :
  products (exchange_amounts data) = products data.
Proof.
  unfold products, exchange_amounts. now rewrite map_map.
Qed.

Lemma revenue_of_exchange_amounts {num : Type} `{Number num}
  (data : list (Row num)) (product : string) :
  revenue_of (exchange_amounts data) product = quantity_of data product.
Proof.
  unfold revenue_of, quantity_of, rows_of_product, exchange_amounts. f_equal.
  induction data as [|item data IH]; simpl; [reflexivity|].
  destruct (String.eqb (Product_Name item) product); simpl; now rewrite IH.
Qed.

(** X13: when the quantities are non-negative whole numbers whose total is
    below 2^53, the values of the quantity chart add up to the same number
    as the quantities of the rows: the number of the total quantity. *)
Theorem quantity_conserved_for_whole_amounts
  (data : list (Row float)) (amounts : list Z) :
  map Quantity_Sold data = map float_of_Z amounts ->
  Forall (fun a => (0 <= a)%Z) amounts ->
  (total amounts < 2 ^ 53)%Z ->
  exists values,
    of_chart chart_values "quantitySoldChart" (createChartData data) = Some values /\
    sum values = float_of_Z (total amounts) /\
    sum (quantities data) = float_of_Z (total amounts).
Proof.
  intros Hdata Hpos Hbound.
  destruct (revenue_conserved_without_rounding float_of_Z (2 ^ 53 - 1)
              (exchange_amounts data) amounts)
    as (revenues & values & Hrevenues & Hvalues & Hr & Hv);
    try assumption; try lia.
  - reflexivity.
  - intros a b Ha Hb Hab. apply float_addition_exact; lia.
  - unfold exchange_amounts. rewrite map_map. exact Hdata.
  - exists revenues. rewrite quantitySoldChart_values.
    rewrite productRevenueChart_values in Hrevenues.
    rewrite revenueOverTime_values in Hvalues.
    injection Hrevenues as <-. injection Hvalues as <-.
    rewrite products_exchange_amounts in *.
    repeat split.
    + f_equal. apply map_ext. intros product.
      symmetry. apply revenue_of_exchange_amounts.
    + exact Hr.
    + rewrite <- Hv. unfold totalRevenue, quantities, exchange_amounts.
      now rewrite map_map.
Qed.

(** The example rows, whose quantities are the whole amounts 10, 5, 20. *)
Lemma quantity_conserved_on_example_rows :
  exists values,
    of_chart chart_values "quantitySoldChart" (createChartData example_rows)
    = Some values /\
    sum values = float_of_Z (total [10; 5; 20]%Z) /\
    sum (quantities example_rows) = float_of_Z (total [10; 5; 20]%Z).
Proof.
  apply (quantity_conserved_for_whole_amounts example_rows [10; 5; 20]%Z).
  - reflexivity.
  - repeat constructor; lia.
  - reflexivity.
Defined.

(** ** Rows of a single product *)

Lemma dedup_constant (k : string) (l : list string) :
  l <> [] -> Forall (fun k' => k' = k) l -> dedup l = [k].
Proof.
  intros Hl Hall. induction Hall as [|k' l -> Hall IH]; [contradiction|].
  simpl. f_equal. destruct l as [|k'' l]; [reflexivity|].
  rewrite IH by discriminate. simpl. now rewrite String.eqb_refl.
Qed.

(** X14: when all rows name one product, the product charts have that one
    label, and their single values are the sums of the rows' revenues and
    quantities accumulated in row order, in any arithmetic. *)
Theorem single_product_charts
  {num : Type} `{Number num} (data : list (Row num)) (product : string) :
  data <> [] ->
  Forall (fun item => Product_Name item = product) data ->
  let out := createChartData data in
  of_chart chart_labels "productRevenueChart" out = Some [product] /\
  of_chart chart_values "productRevenueChart" out = Some [sum (totalRevenue data)] /\
  of_chart chart_values "quantitySoldChart" out = Some [sum (quantities data)] /\
  of_chart chart_values "averageRevenueChart" out
  = Some [div (sum (totalRevenue data)) (sum (quantities data))].
Proof.
  intros Hdata Hall out. subst out.
  assert (products data = [product]) as Hproducts.
  { unfold products. rewrite Set_spread_dedup. apply dedup_constant.
    - destruct data; [contradiction|discriminate].
    - apply Forall_map. exact Hall. }
  assert (rows_of_product product data = data) as Hrows.
  { apply filter_all. intros item Hitem. rewrite Forall_forall in Hall.
    rewrite (Hall item Hitem). apply String.eqb_refl. }
  rewrite productRevenueChart_labels, productRevenueChart_values,
    quantitySoldChart_values, averageRevenueChart_values, Hproducts.
  unfold revenue_of, quantity_of. simpl. rewrite Hrows. repeat split.
Qed.

(** Two rows of product A. *)
Lemma single_product_charts_example :
  let data := [ mkRow "1/5/2023" "A" 0.1%float 1%float;
                mkRow "2/1/2023" "A" 0.2%float 2%float ] in
  let out := createChartData data in
  of_chart chart_labels "productRevenueChart" out = Some ["A"] /\
  of_chart chart_values "productRevenueChart" out = Some [sum (totalRevenue data)] /\
  of_chart chart_values "quantitySoldChart" out = Some [sum (quantities data)] /\
  of_chart chart_values "averageRevenueChart" out
  = Some [div (sum (totalRevenue data)) (sum (quantities data))].
Proof.
  apply (single_product_charts
           [ mkRow "1/5/2023" "A" 0.1%float 1%float;
             mkRow "2/1/2023" "A" 0.2%float 2%float ] "A").
  - discriminate.
  - repeat constructor.
Defined.

(** ** Division by zero *)

Lemma Prim2SF_positive_finite (c : float) :
  PrimFloat.ltb 0 c = true -> PrimFloat.ltb c infinity = true ->
  exists m e, Prim2SF c = S754_finite false m e.
Proof.
  rewrite !FloatAxioms.ltb_spec.
  change (Prim2SF 0) with (S754_zero false).
  change (Prim2SF infinity) with (S754_infinity false).
  destruct (Prim2SF c) as [s|s| |s m e]; try destruct s; try discriminate.
  intros _ _. now exists m, e.
Qed.

Lemma float_sub_zero (c : float) (m : positive) (e : Z) :
  Prim2SF c = S754_finite false m e -> PrimFloat.sub c 0 = c.
Proof.
  intros Hc. apply Prim2SF_inj. rewrite FloatAxioms.sub_spec, Hc. reflexivity.
Qed.

Lemma float_div_zero (c : float) (m : positive) (e : Z) :
  Prim2SF c = S754_finite false m e -> PrimFloat.div c 0 = infinity.
Proof.
  intros Hc. apply Prim2SF_inj. rewrite FloatAxioms.div_spec, Hc. reflexivity.
Qed.

(** X15: a product whose quantities add up to 0 makes the average a
    division by zero, which does not throw: the average is NaN when its
    revenues add up to 0 as well, and Infinity when they add up to a
    positive finite number. *)
Theorem average_of_zero_quantity
  (data : list (Row float)) (i : nat) (product : string) :
  nth_error (products data) i = Some product ->
  quantity_of data product = 0%float ->
  exists averages,
    of_chart chart_values "averageRevenueChart" (createChartData data)
    = Some averages /\
    (revenue_of data product = 0%float -> nth_error averages i = Some nan) /\
    (PrimFloat.ltb 0 (revenue_of data product) = true ->
     PrimFloat.ltb (revenue_of data product) infinity = true ->
     nth_error averages i = Some infinity).
Proof.
  intros Hproduct Hquantity. eexists. split; [apply averageRevenueChart_values|].
  rewrite nth_error_map, Hproduct. cbn [option_map]. rewrite Hquantity. split.
  - intros ->. reflexivity.
  - intros Hpos Hfin.
    destruct (Prim2SF_positive_finite _ Hpos Hfin) as (m & e & Hc).
    f_equal. exact (float_div_zero _ m e Hc).
Qed.

(** A product sold zero times for a revenue of 5. *)
Lemma average_of_zero_quantity_example :
  exists averages,
    of_chart chart_values "averageRevenueChart"
      (createChartData [ mkRow "1/5/2023" "A" 0%float 0%float;
                         mkRow "1/6/2023" "B" 5%float 0%float ])
    = Some averages /\
    (revenue_of [ mkRow "1/5/2023" "A" 0%float 0%float;
                  mkRow "1/6/2023" "B" 5%float 0%float ] "B" = 0%float ->
     nth_error averages 1 = Some nan) /\
    (PrimFloat.ltb 0 (revenue_of [ mkRow "1/5/2023" "A" 0%float 0%float;
                                   mkRow "1/6/2023" "B" 5%float 0%float ] "B")
     = true ->
     PrimFloat.ltb (revenue_of [ mkRow "1/5/2023" "A" 0%float 0%float;
                                 mkRow "1/6/2023" "B" 5%float 0%float ] "B")
                   infinity
     = true ->
     nth_error averages 1 = Some infinity).
Proof.
  apply (average_of_zero_quantity
           [ mkRow "1/5/2023" "A" 0%float 0%float;
             mkRow "1/6/2023" "B" 5%float 0%float ] 1 "B"); reflexivity.
Defined.

(** X16: after a month whose revenue is 0 the growth is a division by
    zero, which does not throw: it is NaN when the month's own revenue is 0
    as well, and Infinity when it is a positive finite number. *)
Theorem growth_after_zero_revenue
  (data : list (Row float)) (i : nat) (current : float) :
  0 < i ->
  nth_error (monthlyRevenue data) (i - 1) = Some 0%float ->
  nth_error (monthlyRevenue data) i = Some current ->
  (current = 0%float -> nth_error (monthlyGrowth data) i = Some nan) /\
  (PrimFloat.ltb 0 current = true -> PrimFloat.ltb current infinity = true ->
   nth_error (monthlyGrowth data) i = Some infinity).
Proof.
  intros Hi Hprevious Hcurrent.
  assert (nth_error (monthlyGrowth data) i
          = Some (PrimFloat.mul (PrimFloat.div (PrimFloat.sub current 0) 0) 100))
    as Hgrowth.
  { unfold monthlyGrowth, map_indexed.
    rewrite nth_error_map_from, Hcurrent. cbn [option_map Nat.add].
    destruct (Nat.eqb_spec i 0) as [->|_]; [lia|].
    now rewrite (nth_error_nth _ _ _ Hprevious). }
  rewrite Hgrowth. split.
  - intros ->. reflexivity.
  - intros Hpos Hfin.
    destruct (Prim2SF_positive_finite _ Hpos Hfin) as (m & e & Hc).
    rewrite (float_sub_zero _ m e Hc), (float_div_zero _ m e Hc). reflexivity.
Qed.

(** A first month without revenue, then one with 200. *)
Lemma growth_after_zero_revenue_example :
  (200%float = 0%float -> nth_error (monthlyGrowth late_start_rows) 1 = Some nan) /\
  (PrimFloat.ltb 0 200 = true -> PrimFloat.ltb 200 infinity = true ->
   nth_error (monthlyGrowth late_start_rows) 1 = Some infinity).
Proof.
  apply (growth_after_zero_revenue late_start_rows 1 200%float).
  - lia.
  - reflexivity.
  - reflexivity.
Defined.

(** ** What is shown *)


(** ** Rows whose fields are text *)

Lemma append_empty_r (s : string) : (s ++ "")%string = s.
Proof.
  induction s as [|c s IH]; simpl; [reflexivity|]. now rewrite IH.
Qed.

Lemma append_associative (a b c : string) :
  ((a ++ b) ++ c)%string = (a ++ b ++ c)%string.
Proof.
  induction a as [|x a IH]; simpl; [reflexivity|]. now rewrite IH.
Qed.

Lemma concat_cons (text : string) (texts : list string) :
  String.concat "" (text :: texts) = (text ++ String.concat "" texts)%string.
Proof.
  destruct texts as [|next texts]; [|reflexivity].
  simpl. now rewrite append_empty_r.
Qed.

Lemma fold_plus_texts (Number_toString : float -> string)
  (fields : list cell) (acc : string) :
  fold_left (plus Number_toString) fields (CStr acc)
  = CStr (acc ++ String.concat "" (map (ToString Number_toString) fields)).
Proof.
  revert acc. induction fields as [|c fields IH]; intros acc.
  - simpl. now rewrite append_empty_r.
  - cbn [fold_left map].
    change (plus Number_toString (CStr acc) c)
      with (CStr (acc ++ ToString Number_toString c)).
    now rewrite IH, concat_cons, append_associative.
Qed.

(** X19: when the revenue fields of the rows are text, as a CSV parser
    that does not convert fields yields them, the "sum" of a product's
    revenues is not a number: it is the text [0] followed by the texts of
    the product's revenue fields, in row order. *)
Theorem text_revenues_are_concatenated
  (Number_toString : float -> string) (Number_ofString : string -> float)
  (data : list (Row cell)) (i : nat) (product : string) :
  Number_toString 0%float = "0" ->
  Forall (fun item => exists text, Total_Revenue item = CStr text) data ->
  nth_error (products data) i = Some product ->
  exists values,
    of_chart chart_values "productRevenueChart"
      (@createChartData cell (cell_number Number_toString Number_ofString) data)
    = Some values /\
    nth_error values i
    = Some (CStr ("0" ++ String.concat ""
                           (map (fun item => ToString Number_toString (Total_Revenue item))
                                (rows_of_product product data)))).
Proof.
  intros Hzero Htext Hproduct. eexists. split; [apply productRevenueChart_values|].
  rewrite nth_error_map, Hproduct. cbn [option_map]. f_equal.
  unfold revenue_of, sum.
  assert (rows_of_product product data <> []) as Hrows.
  { apply nth_error_In in Hproduct.
    unfold products in Hproduct. rewrite Set_spread_dedup in Hproduct.
    apply In_dedup, in_map_iff in Hproduct as (item & Hname & Hitem).
    intros Hnone.
    assert (In item (rows_of_product product data)) as Hin.
    { apply filter_In. split; [exact Hitem|]. rewrite Hname. apply String.eqb_refl. }
    rewrite Hnone in Hin. contradiction. }
  assert (Forall (fun item => exists text, Total_Revenue item = CStr text)
            (rows_of_product product data)) as Hfields.
  { apply Forall_forall. intros item Hitem. apply filter_In in Hitem as [Hitem _].
    rewrite Forall_forall in Htext. now apply Htext. }
  destruct (rows_of_product product data) as [|first rest]; [contradiction|].
  inversion Hfields as [|? ? [text Hfirst] _]; subst.
  cbn [map fold_left]. rewrite Hfirst.
  change (add zero (CStr text))
    with (CStr (Number_toString 0%float ++ text)).
  change (@add cell (cell_number Number_toString Number_ofString))
    with (plus Number_toString).
  rewrite Hzero, fold_plus_texts, concat_cons, map_map.
  now rewrite append_associative.
Qed.

(** The revenue of product A of the example rows, read from a CSV file. *)
Lemma text_revenues_are_concatenated_example :
  exists values,
    of_chart chart_values "productRevenueChart"
      (@createChartData cell (cell_number (fun _ => "0") (fun _ => nan)) text_rows)
    = Some values /\
    nth_error values 0
    = Some (CStr ("0" ++ String.concat ""
                           (map (fun item => ToString (fun _ => "0") (Total_Revenue item))
                                (rows_of_product "A" text_rows)))).
Proof.
  apply (text_revenues_are_concatenated (fun _ => "0") (fun _ => nan) text_rows 0 "A").
  - reflexivity.
  - repeat constructor; eexists; reflexivity.
  - reflexivity.
Defined.

(** That text is [0100200]. *)
Example text_revenue_of_product_A :
  ("0" ++ String.concat ""
            (map (fun item => ToString (fun _ => "0") (Total_Revenue item))
                 (rows_of_product "A" text_rows)))%string
  = "0100200".
Proof. reflexivity. Qed.
